(** * mailcoil: the message-assembly pipeline of [mailcoil/Email.py]

    A shallow embedding of [MailAddress], [Attachment] and [Email] and of
    the three layers [Email.serialize] runs through, followed by the
    properties of the pipeline.

    Python [str] values are modelled as [string] (the UTF-8 bytes of the
    text), [bytes] as [list byte].  Methods of [Email] that read or write
    [self] live in the monad [Py]: a state monad over the instance whose
    result is either a raised exception or a value; the instance survives a
    raised exception, as it does in Python. *)

From Stdlib Require Import String Ascii List Bool Arith Lia Strings.Byte DecimalString.
From Stdlib Require Import DecimalNat Lists.Finite.
Import ListNotations.
Open Scope string_scope.

(** ** Python string primitives used by the module *)

Module Str.

Definition newline : ascii := "010"%char.
Definition slash : ascii := "/"%char.
Definition dquote : string := String "034"%char "".

(** [s.split(sep)] for a one-character separator: always at least one field. *)
Fixpoint split (sep : ascii) (s : string) : list string :=
  match s with
  | EmptyString => [ "" ]
  | String c rest =>
      if Ascii.eqb c sep then "" :: split sep rest
      else match split sep rest with
           | field :: fields => String c field :: fields
           | [] => [ String c "" ]
           end
  end.

(** [sep.join(l)]. *)
Fixpoint join (sep : string) (l : list string) : string :=
  match l with
  | [] => ""
  | [ x ] => x
  | x :: rest => x ++ sep ++ join sep rest
  end.

Definition contains (c : ascii) (s : string) : bool :=
  existsb (Ascii.eqb c) (list_ascii_of_string s).

Definition hexdigit (n : nat) : ascii :=
  if Nat.ltb n 10 then ascii_of_nat (48 + n) else ascii_of_nat (87 + n).

(** [b.hex()]: two lower-case digits per byte. *)
Fixpoint hex (b : list byte) : string :=
  match b with
  | [] => ""
  | x :: rest =>
      let n := Byte.to_nat x in
      String (hexdigit (n / 16)) (String (hexdigit (n mod 16)) (hex rest))
  end.

(** [str(n)] / the [{n}] of an f-string, for a non-negative integer. *)
Definition of_nat (n : nat) : string := NilEmpty.string_of_uint (Nat.to_uint n).

(** [s.lower()] on ASCII letters. *)
Definition lower_char (c : ascii) : ascii :=
  let n := nat_of_ascii c in
  if Nat.leb 65 n && Nat.leb n 90 then ascii_of_nat (n + 32) else c.

Fixpoint lower (s : string) : string :=
  match s with
  | EmptyString => EmptyString
  | String c rest => String (lower_char c) (lower rest)
  end.

(** [s.encode("utf-8")] on the byte model of [str]. *)
Definition encode_utf8 (s : string) : list byte := list_byte_of_string s.

End Str.

(** ** Exceptions and the method monad *)

Inductive exn : Type :=
| NoRecipientException (message : string)
| NoBodyException (message : string)
| ValueError          (* a destructuring assignment met the wrong number of values *)
| AttributeError      (* a [str] method was called on [None] *)
| UnicodeEncodeError. (* [formataddr] was given a mailbox outside ASCII *)

Definition result (A : Type) : Type := (exn + A)%type.

Definition Py (S A : Type) : Type := S -> result A * S.

Definition ret {S A} (a : A) : Py S A := fun s => (inr a, s).
Definition raise {S A} (e : exn) : Py S A := fun s => (inl e, s).
Definition bind {S A B} (c : Py S A) (k : A -> Py S B) : Py S B :=
  fun s => match c s with
           | (inr a, s') => k a s'
           | (inl e, s') => (inl e, s')
           end.
Definition get {S} : Py S S := fun s => (inr s, s).
Definition put {S} (s : S) : Py S unit := fun _ => (inr tt, s).
Definition lift {S A} (r : result A) : Py S A := fun s => (r, s).

(** Sequencing of two computations that may raise but touch no state. *)
Definition and_then {A B} (r : result A) (k : A -> result B) : result B :=
  match r with
  | inl e => inl e
  | inr a => k a
  end.

Declare Scope py_scope.
Delimit Scope py_scope with py.
Notation "x <- c ;; k" := (bind c (fun x => k))
  (at level 61, c at next level, right associativity) : py_scope.

(** The list comprehension [[ f(x) for x in l ]] when [f] may raise: the
    first exception aborts the comprehension. *)
Fixpoint comprehension {A B} (f : A -> result B) (l : list A) : result (list B) :=
  match l with
  | [] => inr []
  | x :: rest =>
      match f x with
      | inl e => inl e
      | inr y => match comprehension f rest with
                 | inl e => inl e
                 | inr ys => inr (y :: ys)
                 end
      end
  end.

Definition is_None {A} (o : option A) : bool :=
  match o with None => true | Some _ => false end.

(** ** What the module imports

    The functions of the Python standard library the module calls, and the
    version constant of the package, are parameters of the development. *)

Class Stdlib : Type := {
  float : Type;                                          (* result of [time.time()] *)
  getaddresses : list string -> list (string * string);  (* [email.utils.getaddresses] *)
  formataddr : string * string -> option string;         (* [email.utils.formataddr]; [None]:
                                                            it raises [UnicodeEncodeError] *)
  formatdate : float -> bool -> string;                  (* [email.utils.formatdate(timeval, localtime)] *)
  textwrap_wrap : string -> nat -> list string;          (* [textwrap.wrap(text, width)] *)
  guess_type : string -> option string * option string;  (* [mimetypes.guess_type] *)
  VERSION : string                                       (* [mailcoil.VERSION] *)
}.

(** ** MIME entities

    The objects of [email.mime] are kept symbolically: a leaf records the
    arguments [MIMEGeneric.__init__] was given (payload, type, transfer
    encoder), the parameters set on its [Content-Type] and the headers
    assigned with [msg[name] = value]; a multipart records its subtype, the
    parts attached so far and the headers assigned.  The headers the
    library itself puts on an entity when it is constructed and encoded
    follow from these fields ([mime_headers]). *)

Inductive Encoder : Type := encode_base64 | encode_quopri.

Set Warnings "-register-all".

Inductive MIMEBase : Type :=
| MIMEGeneric (payload : list byte) (maintype subtype : string) (encoder : Encoder)
              (params : list (string * string)) (headers : list (string * string))
| MIMEMultipart (subtype : string) (parts : list MIMEBase)
                (headers : list (string * string)).

(** [msg[name] = value]: appends a header, never replaces one. *)
Definition setitem (msg : MIMEBase) (name value : string) : MIMEBase :=
  match msg with
  | MIMEGeneric p mt st enc ps hs => MIMEGeneric p mt st enc ps (hs ++ [ (name, value) ])%list
  | MIMEMultipart st parts hs => MIMEMultipart st parts (hs ++ [ (name, value) ])%list
  end.

(** [msg.attach(part)] on a multipart container. *)
Definition attach_part (msg part : MIMEBase) : MIMEBase :=
  match msg with
  | MIMEMultipart st parts hs => MIMEMultipart st (parts ++ [ part ])%list hs
  | MIMEGeneric _ _ _ _ _ _ => msg
  end.

(** [part.set_param(name, value, header = "Content-Type")]. *)
Definition set_param (msg : MIMEBase) (name value : string) : MIMEBase :=
  match msg with
  | MIMEGeneric p mt st enc ps hs => MIMEGeneric p mt st enc (ps ++ [ (name, value) ])%list hs
  | MIMEMultipart _ _ _ => msg
  end.

(** The header [Content-Transfer-Encoding] the encoder assigns. *)
Definition content_transfer_encoding (enc : Encoder) : string :=
  match enc with
  | encode_base64 => "base64"
  | encode_quopri => "quoted-printable"
  end.

(** A parameter as [set_param] writes it into the header, for a value free
    of quotes and backslashes (the module passes [utf-8] only). *)
Definition formatparam (p : string * string) : string :=
  fst p ++ "=" ++ Str.dquote ++ snd p ++ Str.dquote.

(** The headers of [email.mime] itself: [MIMEBase.__init__] assigns
    [Content-Type] and [MIME-Version], the encoder appends
    [Content-Transfer-Encoding], and [set_param], called on the fresh
    part, deletes [Content-Type] and appends it again with the parameter. *)
Definition mime_headers (msg : MIMEBase) : list (string * string) :=
  match msg with
  | MIMEGeneric _ mt st enc [] _ =>
      [ ("Content-Type", mt ++ "/" ++ st);
        ("MIME-Version", "1.0");
        ("Content-Transfer-Encoding", content_transfer_encoding enc) ]
  | MIMEGeneric _ mt st enc ps _ =>
      [ ("MIME-Version", "1.0");
        ("Content-Transfer-Encoding", content_transfer_encoding enc);
        ("Content-Type", Str.join "; " ((mt ++ "/" ++ st) :: map formatparam ps)) ]
  | MIMEMultipart st _ _ =>
      [ ("Content-Type", "multipart/" ++ st); ("MIME-Version", "1.0") ]
  end.

(** The headers assigned with [msg[name] = value], in order. *)
Definition assigned_headers (msg : MIMEBase) : list (string * string) :=
  match msg with
  | MIMEGeneric _ _ _ _ _ hs => hs
  | MIMEMultipart _ _ hs => hs
  end.

(** All headers of the entity ([msg.items()]). *)
Definition headers_of (msg : MIMEBase) : list (string * string) :=
  (mime_headers msg ++ assigned_headers msg)%list.

(** [msg.get_all(name)]: the values of header [name], in the order of the
    header list; header names compare without regard to case. *)
Definition get_all (msg : MIMEBase) (name : string) : list string :=
  map snd (filter (fun h => String.eqb (Str.lower (fst h)) (Str.lower name))
                  (headers_of msg)).

(** The security policy ([SMIME | None]): one operation on an assembled entity. *)
Record SMIME : Type := { process : MIMEBase -> MIMEBase }.

(** What a field of a dataclass can hold at run time, as far as this module
    stores values in [SerializedEmail.content]; the annotation of a dataclass
    field is not enforced. *)
Inductive pyobj : Type :=
| PyBytes (b : list byte)
| PyMessage (msg : MIMEBase).

Record MailAddress : Type := { mail : string; name : option string }.

Record SerializedEmail : Type := { recipients : list string; content : pyobj }.

Record Attachment : Type := {
  data : list byte;
  maintype : string;
  subtype : string;
  filename : string;
  inline : bool;
  content_id : string
}.

Section Mailcoil.

Context `{lib : Stdlib}.

Local Open Scope py_scope.

(** *** MailAddress *)

Definition encode (self : MailAddress) : result string :=
  match name self with
  | Some n =>
      match formataddr (n, mail self) with
      | Some rendered => inr rendered
      | None => inl UnicodeEncodeError
      end
  | None => inr (mail self)
  end.

(** [MailAddress.parse]: an instance is returned as it is; a string must
    destructure into exactly one (name, mail) pair. *)
Definition parse (addr : MailAddress + string) : result MailAddress :=
  match addr with
  | inl a => inr a
  | inr s =>
      match getaddresses [ s ] with
      | [ (n, m) ] =>
          if String.eqb n "" then inr {| mail := m; name := None |}
          else inr {| mail := m; name := Some n |}
      | _ => inl ValueError
      end
  end.

(** *** Attachment *)

Definition as_mime (self : Attachment) : MIMEBase :=
  let mime := MIMEGeneric (data self) (maintype self) (subtype self) encode_base64 [] [] in
  let mime := setitem mime "Content-Disposition"
                ((if inline self then "inline" else "attachment")
                   ++ "; filename=" ++ Str.dquote ++ filename self ++ Str.dquote) in
  let mime := setitem mime "Content-ID" (content_id self) in
  mime.

(** *** Email *)

Record Email : Type := {
  _from : MailAddress;
  _to : list MailAddress;
  _cc : list MailAddress;
  _bcc : list MailAddress;
  _subject : option string;
  _text : option string;
  _wrap_text : bool;
  _html : option string;
  _security : option SMIME;
  _datetime : float;
  _message_id : string;
  _attachments : list Attachment
}.

Definition M : Type -> Type := Py Email.

(** [Email.__init__]; [now] is the value of [time.time()] and [urandom16]
    that of [os.urandom(16)] at the moment of construction. *)
Definition __init__ (now : float) (urandom16 : list byte)
    (from_address : MailAddress + string) (subject text : option string)
    (wrap_text : bool) (html : option string) (security : option SMIME)
  : result Email :=
  match parse from_address with
  | inl e => inl e
  | inr from =>
      inr {| _from := from; _to := []; _cc := []; _bcc := [];
             _subject := subject; _text := text; _wrap_text := wrap_text;
             _html := html; _security := security; _datetime := now;
             _message_id := "<" ++ Str.hex urandom16 ++ "@mailcoil>";
             _attachments := [] |}
  end.

Definition recipient_count (self : Email) : nat :=
  length (_to self) + length (_cc self) + length (_bcc self).

Definition with_to (self : Email) (l : list MailAddress) : Email :=
  {| _from := _from self; _to := l; _cc := _cc self; _bcc := _bcc self;
     _subject := _subject self; _text := _text self; _wrap_text := _wrap_text self;
     _html := _html self; _security := _security self; _datetime := _datetime self;
     _message_id := _message_id self; _attachments := _attachments self |}.

Definition with_cc (self : Email) (l : list MailAddress) : Email :=
  {| _from := _from self; _to := _to self; _cc := l; _bcc := _bcc self;
     _subject := _subject self; _text := _text self; _wrap_text := _wrap_text self;
     _html := _html self; _security := _security self; _datetime := _datetime self;
     _message_id := _message_id self; _attachments := _attachments self |}.

Definition with_bcc (self : Email) (l : list MailAddress) : Email :=
  {| _from := _from self; _to := _to self; _cc := _cc self; _bcc := l;
     _subject := _subject self; _text := _text self; _wrap_text := _wrap_text self;
     _html := _html self; _security := _security self; _datetime := _datetime self;
     _message_id := _message_id self; _attachments := _attachments self |}.

Definition with_attachments (self : Email) (l : list Attachment) : Email :=
  {| _from := _from self; _to := _to self; _cc := _cc self; _bcc := _bcc self;
     _subject := _subject self; _text := _text self; _wrap_text := _wrap_text self;
     _html := _html self; _security := _security self; _datetime := _datetime self;
     _message_id := _message_id self; _attachments := l |}.

(** [self._to += [ MailAddress.parse(addr) for addr in mail_addresses ]];
    the method returns [self], which the monad already threads. *)
Definition to (mail_addresses : list (MailAddress + string)) : M unit :=
  parsed <- lift (comprehension parse mail_addresses) ;;
  self <- get ;;
  put (with_to self (_to self ++ parsed)%list).

Definition cc (mail_addresses : list (MailAddress + string)) : M unit :=
  parsed <- lift (comprehension parse mail_addresses) ;;
  self <- get ;;
  put (with_cc self (_cc self ++ parsed)%list).

Definition bcc (mail_addresses : list (MailAddress + string)) : M unit :=
  parsed <- lift (comprehension parse mail_addresses) ;;
  self <- get ;;
  put (with_bcc self (_bcc self ++ parsed)%list).

Definition _mimetype (filename : string) (override : option string) : string :=
  match override with
  | None =>
      match fst (guess_type filename) with
      | None => "application/octet-stream"
      | Some mimetype => mimetype
      end
  | Some o => o
  end.

Definition attach_data (data : list byte) (filename : string)
    (mimetype : option string) (inline : bool) (cid : option string) : M string :=
  self <- get ;;
  match Str.split Str.slash (_mimetype filename mimetype) with
  | [ maintype; subtype ] =>
      let content_id :=
        match cid with
        | None => "cid" ++ Str.of_nat (length (_attachments self))
        | Some c => c
        end in
      let attachment :=
        {| data := data; maintype := maintype; subtype := subtype;
           filename := filename; inline := inline; content_id := content_id |} in
      _ <- put (with_attachments self (_attachments self ++ [ attachment ])%list) ;;
      ret ("cid:" ++ content_id)
  | _ => raise ValueError
  end.

(** The body of the loop of [_wrap_paragraphs] for one paragraph. *)
Definition parwrapped (paragraph : string) : list string :=
  let parwrapped := textwrap_wrap paragraph 72 in
  if Nat.eqb (length parwrapped) 0 then [ "" ] else parwrapped.

Definition _wrap_paragraphs (text : string) : string :=
  let wrapped :=
    fold_left (fun wrapped paragraph => (wrapped ++ parwrapped paragraph)%list)
              (Str.split Str.newline text) [] in
  Str.join (String Str.newline "") wrapped.

(** The property [wrapped_text]; [self.text] is [self._text]. *)
Definition wrapped_text : M (option string) :=
  self <- get ;;
  if _wrap_text self then
    match _text self with
    | Some t => ret (Some (_wrap_paragraphs t))
    | None => raise AttributeError
    end
  else ret (_text self).

Definition _render_text_quopri (text : option string) (subtype : string) : M MIMEBase :=
  match text with
  | None => raise AttributeError
  | Some t =>
      let part := MIMEGeneric (Str.encode_utf8 t) "text" subtype encode_quopri [] [] in
      ret (set_param part "charset" "utf-8")
  end.

Definition _layer_text_content : M MIMEBase :=
  self <- get ;;
  if Nat.eqb (recipient_count self) 0 then
    raise (NoRecipientException "Mail has no To, CC, or BCC set. Unable to serialize.")
  else if is_None (_text self) && is_None (_html self) then
    raise (NoBodyException "Mail has no text or HTML content.")
  else if negb (is_None (_text self)) && negb (is_None (_html self)) then
    let msg := MIMEMultipart "alternative" [] [] in
    text <- wrapped_text ;;
    plain <- _render_text_quopri text "plain" ;;
    let msg := attach_part msg plain in
    html <- _render_text_quopri (_html self) "html" ;;
    ret (attach_part msg html)
  else if negb (is_None (_text self)) then
    text <- wrapped_text ;;
    _render_text_quopri text "plain"
  else
    _render_text_quopri (_html self) "html".

Definition _layer_attachments (prev_layer : MIMEBase) : M MIMEBase :=
  self <- get ;;
  if Nat.eqb (length (_attachments self)) 0 then ret prev_layer
  else
    let msg := MIMEMultipart "related" [] [] in
    let msg := attach_part msg prev_layer in
    ret (fold_left (fun msg attachment => attach_part msg (as_mime attachment))
                   (_attachments self) msg).

Definition _layer_security (prev_layer : MIMEBase) : M MIMEBase :=
  self <- get ;;
  match _security self with
  | None => ret prev_layer
  | Some security => ret (process security prev_layer)
  end.

(** The header assignments of [serialize], applied to the entity the three
    layers produced; an address that cannot be rendered raises. *)
Definition finalize (self : Email) (msg : MIMEBase) : result MIMEBase :=
  let msg := match _subject self with
             | Some s => setitem msg "Subject" s
             | None => msg
             end in
  let msg := setitem msg "Message-ID" (_message_id self) in
  let msg := setitem msg "Date" (formatdate (_datetime self) true) in
  let msg := setitem msg "User-Agent" ("mailcoil v" ++ VERSION) in
  and_then (encode (_from self)) (fun from =>
  let msg := setitem msg "From" from in
  and_then (if Nat.ltb 0 (length (_to self))
            then and_then (comprehension encode (_to self))
                          (fun l => inr (setitem msg "To" (Str.join ", " l)))
            else inr msg) (fun msg =>
  and_then (if Nat.ltb 0 (length (_cc self))
            then and_then (comprehension encode (_cc self))
                          (fun l => inr (setitem msg "CC" (Str.join ", " l)))
            else inr msg) (fun msg =>
  if Nat.ltb 0 (length (_bcc self))
  then and_then (comprehension encode (_bcc self))
                (fun l => inr (setitem msg "BCC" (Str.join ", " l)))
  else inr msg))).

Definition serialize : M SerializedEmail :=
  msg <- _layer_text_content ;;
  msg <- _layer_attachments msg ;;
  msg <- _layer_security msg ;;
  self <- get ;;
  msg <- lift (finalize self msg) ;;
  ret {| content := PyMessage msg;
         recipients := map mail (_to self ++ _cc self ++ _bcc self)%list |}.

End Mailcoil.

(** ** Denotations used in the statements *)

Section Statements.

Context `{lib : Stdlib}.

(** A text leaf as [_render_text_quopri] builds it. *)
Definition text_leaf (subtype : string) (text : string) : MIMEBase :=
  MIMEGeneric (Str.encode_utf8 text) "text" subtype encode_quopri
              [ ("charset", "utf-8") ] [].

(** The text the plain part carries: reflowed when [wrap_text] is set. *)
Definition plain_text (self : Email) (text : string) : string :=
  if _wrap_text self then _wrap_paragraphs text else text.

(** The entity handed to header assembly, given the body layer. *)
Definition enveloped (self : Email) (body : MIMEBase) : MIMEBase :=
  let layered :=
    match _attachments self with
    | [] => body
    | _ :: _ => MIMEMultipart "related" (body :: map as_mime (_attachments self)) []
    end in
  match _security self with
  | None => layered
  | Some security => process security layered
  end.

(** The pairs of [getaddresses] that carry a mailbox; the pair [("", "")]
    is how the library reports input it could not parse. *)
Definition parseable_mailboxes (s : string) : list (string * string) :=
  filter (fun pair => negb (String.eqb (snd pair) "")) (getaddresses [ s ]).

(** The lines [textwrap.wrap] returns for these paragraphs hold no line
    break (the library turns every one into a blank before it wraps). *)
Definition line_break_free (paragraphs : list string) : bool :=
  forallb (fun p => forallb (fun line => negb (Str.contains Str.newline line))
                            (textwrap_wrap p 72))
          paragraphs.

(** Every address of the message can be rendered. *)
Definition can_encode (a : MailAddress) : bool :=
  match encode a with
  | inr _ => true
  | inl _ => false
  end.

Definition encodable (self : Email) : bool :=
  forallb can_encode (_from self :: _to self ++ _cc self ++ _bcc self).

End Statements.

(** ** Display names up to blanks, and the plain fragment of the library *)

Definition space : ascii := " "%char.

Definition is_ascii (s : string) : bool :=
  forallb (fun c => Nat.ltb (nat_of_ascii c) 128) (list_ascii_of_string s).

(** The words of a display name, and the name with every run of blanks
    collapsed to one and none at either end. *)
Definition words (n : string) : list string :=
  filter (fun w => negb (String.eqb w "")) (Str.split space n).

Definition normalize (n : string) : string := Str.join " " (words n).









(** ** A concrete standard library

    The values CPython 3.11 returns at the inputs the examples below use;
    elsewhere the functions fall back to the simplest case of the real
    ones (a name without special characters, a one-line paragraph). *)

Module Sample.

(** [Jürgen], as UTF-8. *)
Definition juergen : string := "J" ++ String "195"%char (String "188"%char "rgen").

Definition fox : string :=
  "The quick brown fox jumps over the lazy dog and keeps running through the forest until night.".

Definition sample_getaddresses (fieldvalues : list string) : list (string * string) :=
  match fieldvalues with
  | [ s ] =>
      if String.eqb s "alice@example.org" then [ ("", "alice@example.org") ]
      else if String.eqb s "bob@example.org" then [ ("", "bob@example.org") ]
      else if String.eqb s "Alice <alice@example.org>" then [ ("Alice", "alice@example.org") ]
      else if String.eqb s "Carol <carol@example.org>" then [ ("Carol", "carol@example.org") ]
      else if String.eqb s "<dave@example.org>" then [ ("", "dave@example.org") ]
      else if String.eqb s "dave@example.org" then [ ("", "dave@example.org") ]
      else if String.eqb s "a@x.org, b@x.org" then [ ("", "a@x.org"); ("", "b@x.org") ]
      else if String.eqb s (juergen ++ " <j@x.de>") then [ (juergen, "j@x.de") ]
      else if String.eqb s "=?utf-8?q?J=C3=BCrgen?= <j@x.de>"
           then [ ("=?utf-8?q?J=C3=BCrgen?=", "j@x.de") ]
      else [ ("", "") ]     (* "", ";", "alice@example.com <bob@example.com>", ... *)
  | _ => []
  end.

Definition sample_formataddr (pair : string * string) : option string :=
  let (realname, address) := pair in
  if negb (is_ascii address) then None
  else if String.eqb realname "" then Some address
  else if String.eqb realname juergen
       then Some ("=?utf-8?q?J=C3=BCrgen?= <" ++ address ++ ">")
  else Some (realname ++ " <" ++ address ++ ">").

Definition sample_wrap (text : string) (width : nat) : list string :=
  if String.eqb text "" then []
  else if String.eqb text "   " then []
  else if String.eqb text fox && Nat.eqb width 72
       then [ "The quick brown fox jumps over the lazy dog and keeps running through";
              "the forest until night." ]
  else [ text ].

Definition sample_formatdate (timeval : nat) (localtime : bool) : string :=
  if Nat.eqb timeval 0
  then (if localtime then "Thu, 01 Jan 1970 00:00:00 +0000"
        else "Thu, 01 Jan 1970 00:00:00 -0000")
  else "Fri, 02 Jan 1970 00:00:00 +0000".

Definition sample_guess_type (filename : string) : option string * option string :=
  if String.eqb filename "report.pdf" then (Some "application/pdf", None)
  else if String.eqb filename "logo.png" then (Some "image/png", None)
  else (None, None).

#[export] Instance cpython : Stdlib := {|
  float := nat;
  getaddresses := sample_getaddresses;
  formataddr := sample_formataddr;
  formatdate := sample_formatdate;
  textwrap_wrap := sample_wrap;
  guess_type := sample_guess_type;
  VERSION := "0.0.1"
|}.

Definition alice : MailAddress := {| mail := "alice@example.org"; name := Some "Alice" |}.
Definition bob : MailAddress := {| mail := "bob@example.org"; name := None |}.
Definition carol : MailAddress := {| mail := "carol@example.org"; name := Some "Carol" |}.
Definition dave : MailAddress := {| mail := "dave@example.org"; name := None |}.

Definition message_id : string := "<000102030405060708090a0b0c0d0e0f@mailcoil>".

(** [Email("Alice <alice@example.org>")]: no recipient, no body yet. *)
Definition blank : Email :=
  {| _from := alice; _to := []; _cc := []; _bcc := [];
     _subject := None; _text := None; _wrap_text := false; _html := None;
     _security := None; _datetime := 0; _message_id := message_id;
     _attachments := [] |}.

(** The same with [.to("bob@example.org")] and [text = "hello"]. *)
Definition note : Email :=
  {| _from := alice; _to := [ bob ]; _cc := []; _bcc := [];
     _subject := None; _text := Some "hello"; _wrap_text := false; _html := None;
     _security := None; _datetime := 0; _message_id := message_id;
     _attachments := [] |}.

Definition logo : Attachment :=
  {| data := [ x89; x50; x4e; x47 ]; maintype := "image"; subtype := "png";
     filename := "logo.png"; inline := true; content_id := "cid0" |}.

Definition report : Attachment :=
  {| data := [ x25; x50; x44; x46 ]; maintype := "application"; subtype := "pdf";
     filename := "report.pdf"; inline := false; content_id := "cid1" |}.

(** A message with every part: three recipient lists, subject, wrapped
    text, HTML and two attachments. *)
Definition newsletter : Email :=
  {| _from := alice; _to := [ bob ]; _cc := [ carol ]; _bcc := [ dave ];
     _subject := Some "News";
     _text := Some (fox ++ String Str.newline (String Str.newline "Bye"));
     _wrap_text := true; _html := Some "<p>News</p>";
     _security := None; _datetime := 0; _message_id := message_id;
     _attachments := [ logo; report ] |}.

(** Recipients but neither text nor HTML. *)
Definition hollow : Email :=
  {| _from := alice; _to := []; _cc := [ carol ]; _bcc := [];
     _subject := None; _text := None; _wrap_text := true; _html := None;
     _security := None; _datetime := 0; _message_id := message_id;
     _attachments := [] |}.

(** The entity [note.serialize()] puts into [content]. *)
Definition note_document : MIMEBase :=
  MIMEGeneric (Str.encode_utf8 "hello") "text" "plain" encode_quopri
    [ ("charset", "utf-8") ]
    [ ("Message-ID", message_id);
      ("Date", "Thu, 01 Jan 1970 00:00:00 +0000");
      ("User-Agent", "mailcoil v0.0.1");
      ("From", "Alice <alice@example.org>");
      ("To", "bob@example.org") ].

Definition note_serialized : SerializedEmail :=
  {| recipients := [ "bob@example.org" ]; content := PyMessage note_document |}.

(** The text of [newsletter] and its reflowed form. *)
Definition news_text : string :=
  fox ++ String Str.newline (String Str.newline "Bye").

Definition news_wrapped : string :=
  "The quick brown fox jumps over the lazy dog and keeps running through"
    ++ String Str.newline "the forest until night."
    ++ String Str.newline (String Str.newline "Bye").

Definition news_body : MIMEBase :=
  MIMEMultipart "alternative"
    [ text_leaf "plain" news_wrapped; text_leaf "html" "<p>News</p>" ] [].

Definition urandom16 : list byte :=
  [ x00; x01; x02; x03; x04; x05; x06; x07; x08; x09; x0a; x0b; x0c; x0d; x0e; x0f ].

End Sample.

(** ** The accessors of [Email] and scripts of method calls *)

Section Accessors.

Context `{lib : Stdlib}.

Local Open Scope py_scope.

Definition with_subject (self : Email) (value : option string) : Email :=
  {| _from := _from self; _to := _to self; _cc := _cc self; _bcc := _bcc self;
     _subject := value; _text := _text self; _wrap_text := _wrap_text self;
     _html := _html self; _security := _security self; _datetime := _datetime self;
     _message_id := _message_id self; _attachments := _attachments self |}.

Definition with_text (self : Email) (value : option string) : Email :=
  {| _from := _from self; _to := _to self; _cc := _cc self; _bcc := _bcc self;
     _subject := _subject self; _text := value; _wrap_text := _wrap_text self;
     _html := _html self; _security := _security self; _datetime := _datetime self;
     _message_id := _message_id self; _attachments := _attachments self |}.

Definition with_html (self : Email) (value : option string) : Email :=
  {| _from := _from self; _to := _to self; _cc := _cc self; _bcc := _bcc self;
     _subject := _subject self; _text := _text self; _wrap_text := _wrap_text self;
     _html := value; _security := _security self; _datetime := _datetime self;
     _message_id := _message_id self; _attachments := _attachments self |}.

Definition with_security (self : Email) (value : option SMIME) : Email :=
  {| _from := _from self; _to := _to self; _cc := _cc self; _bcc := _bcc self;
     _subject := _subject self; _text := _text self; _wrap_text := _wrap_text self;
     _html := _html self; _security := value; _datetime := _datetime self;
     _message_id := _message_id self; _attachments := _attachments self |}.

(** The properties [subject], [text], [html] and [security]; the
    constructor accepts [None] for each of them and so do the setters. *)
Definition subject : M (option string) := self <- get ;; ret (_subject self).
Definition text : M (option string) := self <- get ;; ret (_text self).
Definition html : M (option string) := self <- get ;; ret (_html self).
Definition security : M (option SMIME) := self <- get ;; ret (_security self).

Definition subject_setter (value : option string) : M unit :=
  self <- get ;; put (with_subject self value).
Definition text_setter (value : option string) : M unit :=
  self <- get ;; put (with_text self value).
Definition html_setter (value : option string) : M unit :=
  self <- get ;; put (with_html self value).
Definition security_setter (value : option SMIME) : M unit :=
  self <- get ;; put (with_security self value).

(** One statement of a program that builds a message: a call of a method
    that changes the instance, or an assignment to one of its properties. *)
Inductive call : Type :=
| call_to (mail_addresses : list (MailAddress + string))
| call_cc (mail_addresses : list (MailAddress + string))
| call_bcc (mail_addresses : list (MailAddress + string))
| call_attach_data (data : list byte) (filename : string) (mimetype : option string)
                   (inline : bool) (cid : option string)
| set_subject (value : option string)
| set_text (value : option string)
| set_html (value : option string)
| set_security (value : option SMIME).

Definition run_call (c : call) : M unit :=
  match c with
  | call_to l => to l
  | call_cc l => cc l
  | call_bcc l => bcc l
  | call_attach_data d fn mt il cid => _ <- attach_data d fn mt il cid ;; ret tt
  | set_subject v => subject_setter v
  | set_text v => text_setter v
  | set_html v => html_setter v
  | set_security v => security_setter v
  end.

(** The statements in sequence; the first exception ends the program. *)
Fixpoint run_calls (cs : list call) : M unit :=
  match cs with
  | [] => ret tt
  | c :: rest => _ <- run_call c ;; run_calls rest
  end.

End Accessors.

(** ** Further notions used in the statements *)

(** [s.count(c)] for a one-character [c]. *)
Fixpoint count_char (c : ascii) (s : string) : nat :=
  match s with
  | EmptyString => 0
  | String x rest => (if Ascii.eqb x c then 1 else 0) + count_char c rest
  end.

(** The content ids [attach_data] assigns when the caller never passes one:
    the attachment at index [i] is named [cid] followed by [i]. *)
Definition automatic_ids (attachments : list Attachment) : Prop :=
  map content_id attachments
  = map (fun i => "cid" ++ Str.of_nat i) (seq 0 (length attachments)).

(** An entity without the headers assigned to it. *)
Definition sans_headers (msg : MIMEBase) : MIMEBase :=
  match msg with
  | MIMEGeneric p mt st enc ps _ => MIMEGeneric p mt st enc ps []
  | MIMEMultipart st parts _ => MIMEMultipart st parts []
  end.

(** The value of a hexadecimal digit, and the byte two digits spell. *)
Definition digit_value (c : ascii) : nat :=
  let n := nat_of_ascii c in
  if Nat.ltb n 58 then n - 48 else n - 87.

Fixpoint unhex (s : string) : option (list byte) :=
  match s with
  | EmptyString => Some []
  | String _ EmptyString => None
  | String hi (String lo rest) =>
      match Byte.of_nat (16 * digit_value hi + digit_value lo), unhex rest with
      | Some b, Some bs => Some (b :: bs)
      | _, _ => None
      end
  end.

(** The value of the header of a recipient list, given the rendered
    addresses: none for an empty list. *)
Definition address_header (rendered : list string) : list string :=
  match rendered with
  | [] => []
  | _ :: _ => [ Str.join ", " rendered ]
  end.

(** What a program of method calls can have made of an instance: the
    identity set at construction is the same, and the recipient lists and
    the attachment list have only grown at the end. *)
Definition grown_from `{lib : Stdlib} (e e' : Email) : Prop :=
  _message_id e' = _message_id e
  /\ _datetime e' = _datetime e
  /\ _from e' = _from e
  /\ _wrap_text e' = _wrap_text e
  /\ (exists l, _to e' = (_to e ++ l)%list)
  /\ (exists l, _cc e' = (_cc e ++ l)%list)
  /\ (exists l, _bcc e' = (_bcc e ++ l)%list)
  /\ (exists l, _attachments e' = (_attachments e ++ l)%list).

(** [msg[name] = value] for each pair of a list, in order. *)
Definition assign_all (msg : MIMEBase) (hs : list (string * string)) : MIMEBase :=
  fold_left (fun m h => setitem m (fst h) (snd h)) hs msg.

(** The headers [serialize] assigns, in the order of assignment; the first
    address that cannot be rendered raises. *)
Definition assembled_headers `{lib : Stdlib} (self : Email)
  : result (list (string * string)) :=
  and_then (encode (_from self)) (fun from =>
  and_then (comprehension encode (_to self)) (fun to =>
  and_then (comprehension encode (_cc self)) (fun cc =>
  and_then (comprehension encode (_bcc self)) (fun bcc =>
  inr (match _subject self with
       | Some s => [ ("Subject", s) ]
       | None => []
       end
       ++ [ ("Message-ID", _message_id self);
            ("Date", formatdate (_datetime self) true);
            ("User-Agent", ("mailcoil v" ++ VERSION)%string);
            ("From", from) ]
       ++ map (fun v => ("To", v)) (address_header to)
       ++ map (fun v => ("CC", v)) (address_header cc)
       ++ map (fun v => ("BCC", v)) (address_header bcc))%list)))).

(** ** A library for the plain fragment

    Extraction and rendering as the real library does them on names and
    mailboxes without special characters, and on a quoted name. *)

Module Plain.

Definition plain_getaddresses (fieldvalues : list string) : list (string * string) :=
  match fieldvalues with
  | [ s ] =>
      match Str.split "<"%char s with
      | [ m ] => [ ("", m) ]
      | [ pre; post ] =>
          match Str.split ">"%char post with
          | [ m; rest ] =>
              if negb (String.eqb rest "") then [ ("", "") ]
              else match Str.split "034"%char pre with
                   | [ before; quoted; after ] =>
                       if String.eqb before "" && String.eqb after " "
                       then [ (quoted, m) ]
                       else [ (normalize pre, m) ]
                   | _ => [ (normalize pre, m) ]
                   end
          | _ => [ ("", "") ]
          end
      | _ => [ ("", "") ]
      end
  | _ => []
  end.

Definition plain_formataddr (pair : string * string) : option string :=
  let (realname, address) := pair in
  if negb (is_ascii address) then None
  else if String.eqb realname "" then Some address
  else Some (realname ++ " <" ++ address ++ ">").

#[export] Instance library : Stdlib := {|
  float := nat;
  getaddresses := plain_getaddresses;
  formataddr := plain_formataddr;
  formatdate := Sample.sample_formatdate;
  textwrap_wrap := Sample.sample_wrap;
  guess_type := Sample.sample_guess_type;
  VERSION := "0.0.1"
|}.


Definition spaced_a : MailAddress := {| mail := "j@x.de"; name := Some " a " |}.
Definition trimmed_a : MailAddress := {| mail := "j@x.de"; name := Some "a" |}.

End Plain.

Module Sample2.

Definition pixel : list byte := [ x47; x49; x46 ].

(** [blank] after [attach_data(pixel, "logo.png")]. *)
Definition blank_logo : Email :=
  with_attachments Sample.blank
    [ {| data := pixel; maintype := "image"; subtype := "png";
         filename := "logo.png"; inline := false; content_id := "cid0" |} ].

(** A policy that wraps the entity into a [multipart/signed]. *)
Definition signer : SMIME :=
  {| process := fun entity => MIMEMultipart "signed" [ entity ] [ ("X-Signed", "yes") ] |}.

Definition signed_note : Email := with_security (lib := Sample.cpython) Sample.note (Some signer).

Definition signed_document : MIMEBase :=
  MIMEMultipart "signed" [ text_leaf "plain" "hello" ]
    [ ("X-Signed", "yes");
      ("Message-ID", Sample.message_id);
      ("Date", "Thu, 01 Jan 1970 00:00:00 +0000");
      ("User-Agent", "mailcoil v0.0.1");
      ("From", "Alice <alice@example.org>");
      ("To", "bob@example.org") ].

Definition signed_serialized : SerializedEmail :=
  {| recipients := [ "bob@example.org" ]; content := PyMessage signed_document |}.

(** [blank] after [attach_data(pixel, "logo.png", cid = "cid1")]: the
    caller chose the name the next automatic id will have. *)
Definition blank_custom : Email :=
  with_attachments Sample.blank
    [ {| data := pixel; maintype := "image"; subtype := "png";
         filename := "logo.png"; inline := false; content_id := "cid1" |} ].

Definition report_attachment (cid : string) : Attachment :=
  {| data := [ x25; x50; x44; x46 ]; maintype := "application"; subtype := "pdf";
     filename := "report.pdf"; inline := false; content_id := cid |}.

Definition other_random : list byte :=
  [ xff; x01; x02; x03; x04; x05; x06; x07; x08; x09; x0a; x0b; x0c; x0d; x0e; x0f ].

(** The document of [Sample.newsletter]: the attachment layer with the
    eight headers of header assembly. *)
Definition newsletter_document : MIMEBase :=
  MIMEMultipart "related"
    [ Sample.news_body; as_mime Sample.logo; as_mime Sample.report ]
    [ ("Subject", "News");
      ("Message-ID", Sample.message_id);
      ("Date", "Thu, 01 Jan 1970 00:00:00 +0000");
      ("User-Agent", "mailcoil v0.0.1");
      ("From", "Alice <alice@example.org>");
      ("To", "bob@example.org");
      ("CC", "Carol <carol@example.org>");
      ("BCC", "dave@example.org") ].

Definition newsletter_serialized : SerializedEmail :=
  {| recipients := [ "bob@example.org"; "carol@example.org"; "dave@example.org" ];
     content := PyMessage newsletter_document |}.

(** [Sample.note] after [cc("Carol <carol@example.org>")] and
    [subject = "Hi"], and what it serializes to. *)
Definition note_cc : Email :=
  with_subject (lib := Sample.cpython)
    (with_cc (lib := Sample.cpython) Sample.note [ Sample.carol ]) (Some "Hi").

Definition note_cc_document : MIMEBase :=
  MIMEGeneric (Str.encode_utf8 "hello") "text" "plain" encode_quopri
    [ ("charset", "utf-8") ]
    [ ("Subject", "Hi");
      ("Message-ID", Sample.message_id);
      ("Date", "Thu, 01 Jan 1970 00:00:00 +0000");
      ("User-Agent", "mailcoil v0.0.1");
      ("From", "Alice <alice@example.org>");
      ("To", "bob@example.org");
      ("CC", "Carol <carol@example.org>") ].

Definition note_cc_serialized : SerializedEmail :=
  {| recipients := [ "bob@example.org"; "carol@example.org" ];
     content := PyMessage note_cc_document |}.

(** [Sample.note] with Carol in copy and Bob once more in blind copy. *)
Definition echo : Email :=
  with_bcc (lib := Sample.cpython)
    (with_cc (lib := Sample.cpython) Sample.note [ Sample.carol ]) [ Sample.bob ].

Definition echo_document : MIMEBase :=
  MIMEGeneric (Str.encode_utf8 "hello") "text" "plain" encode_quopri
    [ ("charset", "utf-8") ]
    [ ("Message-ID", Sample.message_id);
      ("Date", "Thu, 01 Jan 1970 00:00:00 +0000");
      ("User-Agent", "mailcoil v0.0.1");
      ("From", "Alice <alice@example.org>");
      ("To", "bob@example.org");
      ("CC", "Carol <carol@example.org>");
      ("BCC", "bob@example.org") ].

Definition echo_serialized : SerializedEmail :=
  {| recipients := [ "bob@example.org"; "carol@example.org"; "bob@example.org" ];
     content := PyMessage echo_document |}.

(** [jürgen@x.de], a mailbox outside ASCII, with a display name: the
    library cannot render the pair. *)
Definition umlaut : MailAddress :=
  {| mail := "j" ++ String "195"%char (String "188"%char "rgen@x.de"); name := Some "J" |}.

(** [Sample.note] with that address in copy. *)
Definition note_umlaut : Email := with_cc (lib := Sample.cpython) Sample.note [ umlaut ].

(** [Email(bob)] built from [other_random]. *)
Definition blank_from_bob : Email :=
  {| _from := Sample.bob; _to := []; _cc := []; _bcc := [];
     _subject := None; _text := None; _wrap_text := false; _html := None;
     _security := None; _datetime := (0 : @float Sample.cpython);
     _message_id := "<ff0102030405060708090a0b0c0d0e0f@mailcoil>";
     _attachments := [] |}.

End Sample2.

(** * Properties *)

(** ** Strings and lists *)

Lemma split_not_nil (sep : ascii) (s : string) : Str.split sep s <> [].
Proof.
  destruct s as [|c rest]; simpl; [discriminate|].
  destruct (Ascii.eqb c sep); [discriminate|].
  destruct (Str.split sep rest); discriminate.
Qed.

Lemma contains_cons (sep c : ascii) (s : string) :
  Str.contains sep (String c s) = Ascii.eqb sep c || Str.contains sep s.
Proof. reflexivity. Qed.

Lemma split_without_sep (sep : ascii) (s : string) :
  Str.contains sep s = false -> Str.split sep s = [ s ].
Proof.
  induction s as [|c rest IH]; intros Hc; [reflexivity|].
  rewrite contains_cons in Hc. apply orb_false_iff in Hc as [Hne Hrest].
  simpl. rewrite Ascii.eqb_sym, Hne, (IH Hrest). reflexivity.
Qed.

Lemma split_line_then_rest (sep : ascii) (line rest : string) :
  Str.contains sep line = false ->
  Str.split sep (line ++ String sep rest) = line :: Str.split sep rest.
Proof.
  induction line as [|c line IH]; intros Hc; simpl.
  - rewrite Ascii.eqb_refl. reflexivity.
  - rewrite contains_cons in Hc. apply orb_false_iff in Hc as [Hne Hline].
    rewrite Ascii.eqb_sym, Hne, (IH Hline). reflexivity.
Qed.

Lemma split_join (sep : ascii) (lines : list string) :
  lines <> [] ->
  forallb (fun l => negb (Str.contains sep l)) lines = true ->
  Str.split sep (Str.join (String sep "") lines) = lines.
Proof.
  induction lines as [|l rest IH]; intros Hne Hall; [congruence|].
  simpl in Hall. apply andb_true_iff in Hall as [Hl Hrest].
  apply negb_true_iff in Hl.
  destruct rest as [|l' rest'].
  - simpl. apply split_without_sep; assumption.
  - change (Str.join (String sep "") (l :: l' :: rest'))
      with (l ++ String sep (Str.join (String sep "") (l' :: rest'))).
    rewrite split_line_then_rest by assumption.
    f_equal. apply IH; [discriminate | assumption].
Qed.

Lemma fold_left_extend {A B} (f : A -> list B) (l : list A) (init : list B) :
  fold_left (fun acc x => (acc ++ f x)%list) l init = (init ++ concat (map f l))%list.
Proof.
  revert init. induction l as [|x l IH]; intros init; simpl.
  - now rewrite app_nil_r.
  - rewrite IH, app_assoc. reflexivity.
Qed.

Lemma fold_left_attach (st : string) (hs : list (string * string))
      {A} (f : A -> MIMEBase) (l : list A) (parts : list MIMEBase) :
  fold_left (fun msg x => attach_part msg (f x)) l (MIMEMultipart st parts hs)
  = MIMEMultipart st (parts ++ map f l) hs.
Proof.
  revert parts. induction l as [|x l IH]; intros parts; simpl.
  - now rewrite app_nil_r.
  - rewrite IH, <- app_assoc. reflexivity.
Qed.

Lemma headers_of_setitem (msg : MIMEBase) (k v : string) :
  headers_of (setitem msg k v) = (headers_of msg ++ [ (k, v) ])%list.
Proof.
  unfold headers_of.
  destruct msg as [p mt st enc [|q ps] hs|st parts hs]; simpl;
    rewrite ?app_assoc; reflexivity.
Qed.

Lemma get_all_setitem (msg : MIMEBase) (k v name : string) :
  get_all (setitem msg k v) name
  = (get_all msg name
       ++ (if String.eqb (Str.lower k) (Str.lower name) then [ v ] else []))%list.
Proof.
  unfold get_all. rewrite headers_of_setitem, filter_app, map_app. simpl.
  destruct (String.eqb (Str.lower k) (Str.lower name)); reflexivity.
Qed.

(** ** Splitting and joining *)

Lemma split_length (sep : ascii) (s : string) :
  length (Str.split sep s) = S (count_char sep s).
Proof.
  induction s as [|c rest IH]; [reflexivity|]. simpl.
  destruct (Ascii.eqb c sep); simpl; [now rewrite IH|].
  destruct (Str.split sep rest) as [|f fs]; [discriminate IH | exact IH].
Qed.

Lemma join_cons_char (sep : string) (c : ascii) (f : string) (fs : list string) :
  Str.join sep (String c f :: fs) = String c (Str.join sep (f :: fs)).
Proof. destruct fs; reflexivity. Qed.

Lemma join_split (sep : ascii) (s : string) :
  Str.join (String sep "") (Str.split sep s) = s.
Proof.
  induction s as [|c rest IH]; [reflexivity|]. simpl.
  destruct (Ascii.eqb_spec c sep) as [->|Hne].
  - pose proof (split_not_nil sep rest) as Hn.
    destruct (Str.split sep rest) as [|f fs]; [congruence|].
    change (Str.join (String sep "") ("" :: f :: fs))
      with (String sep (Str.join (String sep "") (f :: fs))).
    now rewrite IH.
  - pose proof (split_not_nil sep rest) as Hn.
    destruct (Str.split sep rest) as [|f fs]; [congruence|].
    rewrite join_cons_char, IH. reflexivity.
Qed.

Lemma split_fields_clean (sep : ascii) (s : string) :
  Forall (fun f => Str.contains sep f = false) (Str.split sep s).
Proof.
  induction s as [|c rest IH]; simpl; [repeat constructor|].
  destruct (Ascii.eqb_spec c sep) as [->|Hne].
  - constructor; [reflexivity | exact IH].
  - destruct (Str.split sep rest) as [|f fs]; [repeat constructor|].
    + rewrite contains_cons. apply orb_false_iff. split; [|reflexivity].
      apply Ascii.eqb_neq. congruence.
    + inversion IH as [|? ? Hf Hfs]; subst. constructor; [|exact Hfs].
      rewrite contains_cons, Hf. apply orb_false_iff. split; [|reflexivity].
      apply Ascii.eqb_neq. congruence.
Qed.

Lemma of_nat_inj (n m : nat) : Str.of_nat n = Str.of_nat m -> n = m.
Proof.
  unfold Str.of_nat. intros H. apply DecimalNat.Unsigned.to_uint_inj.
  pose proof (NilEmpty.usu (Nat.to_uint n)) as Hn.
  pose proof (NilEmpty.usu (Nat.to_uint m)) as Hm.
  rewrite H in Hn. congruence.
Qed.

(** ** The layers of [serialize] *)

Section Pipeline.

Context `{lib : Stdlib}.

Ltac run :=
  unfold _layer_text_content, _layer_attachments, _layer_security, wrapped_text,
    _render_text_quopri, bind, get, put, ret, raise, lift; simpl.

Lemma recipient_count_eqb (e : Email) :
  Nat.eqb (recipient_count e) 0 = true <-> recipient_count e = 0.
Proof. apply Nat.eqb_eq. Qed.

Lemma layer_text_no_recipient (e : Email) :
  recipient_count e = 0 ->
  _layer_text_content e
  = (inl (NoRecipientException "Mail has no To, CC, or BCC set. Unable to serialize."), e).
Proof.
  intros H. run. apply Nat.eqb_eq in H. rewrite H. reflexivity.
Qed.

Lemma layer_text_no_body (e : Email) :
  recipient_count e <> 0 -> _text e = None -> _html e = None ->
  _layer_text_content e = (inl (NoBodyException "Mail has no text or HTML content."), e).
Proof.
  intros H Ht Hh. run. apply Nat.eqb_neq in H. rewrite H, Ht, Hh. reflexivity.
Qed.

Lemma layer_text_both (e : Email) (t h : string) :
  recipient_count e <> 0 -> _text e = Some t -> _html e = Some h ->
  _layer_text_content e
  = (inr (MIMEMultipart "alternative"
            [ text_leaf "plain" (plain_text e t); text_leaf "html" h ] []), e).
Proof.
  intros H Ht Hh. run. apply Nat.eqb_neq in H. rewrite H, Ht, Hh. simpl.
  unfold plain_text. destruct (_wrap_text e); rewrite ?Ht; reflexivity.
Qed.

Lemma layer_text_only_text (e : Email) (t : string) :
  recipient_count e <> 0 -> _text e = Some t -> _html e = None ->
  _layer_text_content e = (inr (text_leaf "plain" (plain_text e t)), e).
Proof.
  intros H Ht Hh. run. apply Nat.eqb_neq in H. rewrite H, Ht, Hh. simpl.
  unfold plain_text. destruct (_wrap_text e); rewrite ?Ht; reflexivity.
Qed.

Lemma layer_text_only_html (e : Email) (h : string) :
  recipient_count e <> 0 -> _text e = None -> _html e = Some h ->
  _layer_text_content e = (inr (text_leaf "html" h), e).
Proof.
  intros H Ht Hh. run. apply Nat.eqb_neq in H. rewrite H, Ht, Hh. reflexivity.
Qed.

(** The body layer never touches the instance, and raises nothing but the
    two exceptions of the module. *)
Lemma layer_text_cases (e : Email) :
  (recipient_count e = 0 /\
   _layer_text_content e
   = (inl (NoRecipientException "Mail has no To, CC, or BCC set. Unable to serialize."), e))
  \/ (recipient_count e <> 0 /\ _text e = None /\ _html e = None /\
      _layer_text_content e
      = (inl (NoBodyException "Mail has no text or HTML content."), e))
  \/ (recipient_count e <> 0 /\ (_text e <> None \/ _html e <> None) /\
      exists body, _layer_text_content e = (inr body, e)).
Proof.
  destruct (Nat.eq_dec (recipient_count e) 0) as [H0|H0].
  - left. split; [assumption | now apply layer_text_no_recipient].
  - right. destruct (_text e) as [t|] eqn:Ht, (_html e) as [h|] eqn:Hh.
    + right. split; [assumption|]. split; [left; discriminate|].
      eexists. apply (layer_text_both e t h); assumption.
    + right. split; [assumption|]. split; [left; discriminate|].
      eexists. apply (layer_text_only_text e t); assumption.
    + right. split; [assumption|]. split; [right; discriminate|].
      eexists. apply (layer_text_only_html e h); assumption.
    + left. repeat split; try assumption. now apply layer_text_no_body.
Qed.

Lemma layer_attachments_run (e : Email) (prev : MIMEBase) :
  _layer_attachments prev e
  = (inr match _attachments e with
         | [] => prev
         | _ :: _ => MIMEMultipart "related" (prev :: map as_mime (_attachments e)) []
         end, e).
Proof.
  run. destruct (_attachments e) as [|a rest] eqn:Ha; [reflexivity|].
  simpl. f_equal. f_equal.
  exact (fold_left_attach "related" [] as_mime rest [ prev; as_mime a ]).
Qed.

Lemma serialize_raises (e e' : Email) (x : exn) :
  _layer_text_content e = (inl x, e') -> serialize e = (inl x, e').
Proof. intros H. unfold serialize, bind. rewrite H. reflexivity. Qed.

Lemma encode_error (a : MailAddress) (x : exn) :
  encode a = inl x -> x = UnicodeEncodeError.
Proof.
  unfold encode. destruct (name a); [|discriminate].
  destruct (formataddr (s, mail a)); [discriminate | congruence].
Qed.

Lemma comprehension_error {A B} (f : A -> result B) (l : list A) (x : exn) :
  comprehension f l = inl x -> exists a, In a l /\ f a = inl x.
Proof.
  induction l as [|a l IH]; simpl; [discriminate|].
  destruct (f a) as [y|b] eqn:Ha.
  - intros H. injection H as <-. exists a. split; [now left | exact Ha].
  - destruct (comprehension f l); [|discriminate].
    intros H. destruct (IH H) as [a' [Hin Ha']]. exists a'. split; [now right | exact Ha'].
Qed.

Lemma comprehension_length {A B} (f : A -> result B) (l : list A) (ys : list B) :
  comprehension f l = inr ys -> length ys = length l.
Proof.
  revert ys. induction l as [|a l IH]; simpl; intros ys H.
  - now injection H as <-.
  - destruct (f a); [discriminate|]. destruct (comprehension f l); [discriminate|].
    injection H as <-. simpl. f_equal. now apply IH.
Qed.

Lemma assembled_headers_error (e : Email) (x : exn) :
  assembled_headers e = inl x -> x = UnicodeEncodeError.
Proof.
  unfold assembled_headers, and_then.
  destruct (encode (_from e)) eqn:Hf; [intros H; injection H as <-; eauto using encode_error|].
  destruct (comprehension encode (_to e)) eqn:Ht;
    [intros H; injection H as <-;
     apply comprehension_error in Ht as [a [_ Ha]]; eauto using encode_error|].
  destruct (comprehension encode (_cc e)) eqn:Hc;
    [intros H; injection H as <-;
     apply comprehension_error in Hc as [a [_ Ha]]; eauto using encode_error|].
  destruct (comprehension encode (_bcc e)) eqn:Hb;
    [intros H; injection H as <-;
     apply comprehension_error in Hb as [a [_ Ha]]; eauto using encode_error|].
  discriminate.
Qed.

Lemma address_step (msg : MIMEBase) (key : string) (l : list MailAddress) :
  (if Nat.ltb 0 (length l)
   then and_then (comprehension encode l)
                 (fun r => inr (setitem msg key (Str.join ", " r)))
   else inr msg)
  = and_then (comprehension encode l)
             (fun r => inr (assign_all msg (map (fun v => (key, v)) (address_header r)))).
Proof.
  destruct l as [|a l]; [reflexivity|].
  change (Nat.ltb 0 (length (a :: l))) with true. cbv iota.
  destruct (comprehension encode (a :: l)) as [x|r] eqn:Hc; [reflexivity|].
  apply comprehension_length in Hc. destruct r; [discriminate Hc | reflexivity].
Qed.

Lemma assign_all_app (msg : MIMEBase) (h1 h2 : list (string * string)) :
  assign_all msg (h1 ++ h2) = assign_all (assign_all msg h1) h2.
Proof. unfold assign_all. apply fold_left_app. Qed.

(** Header assembly appends the assembled headers, or raises as their
    computation does. *)
Lemma finalize_run (e : Email) (msg : MIMEBase) :
  finalize e msg = and_then (assembled_headers e) (fun hs => inr (assign_all msg hs)).
Proof.
  unfold finalize, assembled_headers.
  destruct (encode (_from e)) as [x|from]; [reflexivity|].
  cbn [and_then]. rewrite !address_step.
  destruct (comprehension encode (_to e)) as [x|to']; [reflexivity|].
  cbn [and_then]. rewrite !address_step.
  destruct (comprehension encode (_cc e)) as [x|cc']; [reflexivity|].
  cbn [and_then]. rewrite !address_step.
  destruct (comprehension encode (_bcc e)) as [x|bcc']; [reflexivity|].
  cbn [and_then]. f_equal. rewrite !assign_all_app.
  destruct (_subject e); reflexivity.
Qed.

Lemma headers_of_assign_all (msg : MIMEBase) (hs : list (string * string)) :
  headers_of (assign_all msg hs) = (headers_of msg ++ hs)%list.
Proof.
  revert msg. induction hs as [|[k v] hs IH]; intros msg; simpl.
  - now rewrite app_nil_r.
  - change (assign_all msg ((k, v) :: hs)) with (assign_all (setitem msg k v) hs).
    rewrite IH, headers_of_setitem, <- app_assoc. reflexivity.
Qed.

Lemma get_all_assign_all (msg : MIMEBase) (hs : list (string * string)) (name : string) :
  get_all (assign_all msg hs) name
  = (get_all msg name
       ++ map snd (filter (fun h => String.eqb (Str.lower (fst h)) (Str.lower name)) hs))%list.
Proof. unfold get_all. now rewrite headers_of_assign_all, filter_app, map_app. Qed.

Lemma assembled_message_id (e : Email) (hs : list (string * string)) :
  assembled_headers e = inr hs ->
  map snd (filter (fun h => String.eqb (Str.lower (fst h)) (Str.lower "Message-ID")) hs)
  = [ _message_id e ]
  /\ map snd (filter (fun h => String.eqb (Str.lower (fst h)) (Str.lower "Date")) hs)
     = [ formatdate (_datetime e) true ].
Proof.
  unfold assembled_headers, and_then.
  destruct (encode (_from e)); [discriminate|].
  destruct (comprehension encode (_to e)) as [|[|t ts]]; [discriminate| |];
    (destruct (comprehension encode (_cc e)) as [|[|c cs]]; [discriminate| |]);
    (destruct (comprehension encode (_bcc e)) as [|[|b bs]]; [discriminate| |]);
    intros H; injection H as <-; destruct (_subject e); split; reflexivity.
Qed.

(** The headers the library itself sets are none of those [serialize]
    assigns. *)
Lemma get_all_assigned (msg : MIMEBase) (name : string) :
  String.eqb "content-type" (Str.lower name) = false ->
  String.eqb "mime-version" (Str.lower name) = false ->
  String.eqb "content-transfer-encoding" (Str.lower name) = false ->
  get_all msg name
  = map snd (filter (fun h => String.eqb (Str.lower (fst h)) (Str.lower name))
                    (assigned_headers msg)).
Proof.
  intros H1 H2 H3. unfold get_all, headers_of. rewrite filter_app, map_app.
  assert (Hm : filter (fun h => String.eqb (Str.lower (fst h)) (Str.lower name))
                      (mime_headers msg) = []).
  { destruct msg as [p mt st enc [|q ps] hs|st parts hs];
      unfold mime_headers; cbn [filter fst];
      change (Str.lower "Content-Type") with "content-type";
      change (Str.lower "MIME-Version") with "mime-version";
      change (Str.lower "Content-Transfer-Encoding") with "content-transfer-encoding";
      rewrite ?H1, ?H2, ?H3; reflexivity. }
  rewrite Hm. reflexivity.
Qed.

Lemma body_layer_bare (e : Email) (body : MIMEBase) :
  _layer_text_content e = (inr body, e) -> assigned_headers body = [].
Proof.
  intros Hrun.
  destruct (layer_text_cases e) as [[H0 Hr] | [[H0 [Ht [Hh Hr]]] | [H0 [_ _]]]];
    try (rewrite Hr in Hrun; discriminate).
  destruct (_text e) as [t|] eqn:Ht, (_html e) as [h|] eqn:Hh.
  - rewrite (layer_text_both e t h H0 Ht Hh) in Hrun. now injection Hrun as <-.
  - rewrite (layer_text_only_text e t H0 Ht Hh) in Hrun. now injection Hrun as <-.
  - rewrite (layer_text_only_html e h H0 Ht Hh) in Hrun. now injection Hrun as <-.
  - rewrite (layer_text_no_body e H0 Ht Hh) in Hrun. discriminate.
Qed.

(** Without a security policy the entity handed to header assembly has no
    header assigned yet. *)
Lemma enveloped_bare (e : Email) (body : MIMEBase) :
  _layer_text_content e = (inr body, e) -> _security e = None ->
  assigned_headers (enveloped e body) = [].
Proof.
  intros Hrun Hsec. unfold enveloped. rewrite Hsec.
  destruct (_attachments e); [|reflexivity]. exact (body_layer_bare e body Hrun).
Qed.

Lemma serialize_returns (e : Email) (body : MIMEBase) :
  _layer_text_content e = (inr body, e) ->
  serialize e
  = (match assembled_headers e with
     | inl x => inl x
     | inr hs =>
         inr {| recipients := map mail (_to e ++ _cc e ++ _bcc e);
                content := PyMessage (assign_all (enveloped e body) hs) |}
     end, e).
Proof.
  intros H. unfold serialize, bind at 1. rewrite H.
  unfold bind at 1. rewrite layer_attachments_run.
  assert (Hsec : _layer_security
                   match _attachments e with
                   | [] => body
                   | _ :: _ => MIMEMultipart "related" (body :: map as_mime (_attachments e)) []
                   end e = (inr (enveloped e body), e)).
  { unfold enveloped, _layer_security, bind, get, ret. destruct (_security e); reflexivity. }
  unfold bind at 1. rewrite Hsec. unfold bind, get, lift, ret.
  rewrite finalize_run. destruct (assembled_headers e); reflexivity.
Qed.

(** A successful [serialize], taken apart. *)
Lemma serialize_inr (e e1 : Email) (s : SerializedEmail) :
  serialize e = (inr s, e1) ->
  exists body hs,
    _layer_text_content e = (inr body, e)
    /\ assembled_headers e = inr hs
    /\ e1 = e
    /\ s = {| recipients := map mail (_to e ++ _cc e ++ _bcc e);
              content := PyMessage (assign_all (enveloped e body) hs) |}.
Proof.
  intros H.
  destruct (layer_text_cases e) as [[_ Hr] | [[_ [_ [_ Hr]]] | [_ [_ [body Hr]]]]];
    try (rewrite (serialize_raises _ _ _ Hr) in H; discriminate).
  rewrite (serialize_returns _ _ Hr) in H.
  destruct (assembled_headers e) as [x|hs]; [discriminate|].
  injection H as <- <-. exists body, hs. repeat split. exact Hr.
Qed.

(** [serialize] never changes the instance. *)
Lemma serialize_state (e : Email) : snd (serialize e) = e.
Proof.
  destruct (layer_text_cases e) as [[_ Hr] | [[_ [_ [_ Hr]]] | [_ [_ [body Hr]]]]].
  - now rewrite (serialize_raises _ _ _ Hr).
  - now rewrite (serialize_raises _ _ _ Hr).
  - now rewrite (serialize_returns _ _ Hr).
Qed.

End Pipeline.

(** ** The builder methods *)

Section Builder.

Context `{lib : Stdlib}.

Lemma to_appends (e e' : Email) (addrs : list (MailAddress + string)) :
  to addrs e = (inr tt, e') ->
  exists parsed, comprehension parse addrs = inr parsed
                 /\ _to e' = (_to e ++ parsed)%list
                 /\ _cc e' = _cc e /\ _bcc e' = _bcc e
                 /\ _message_id e' = _message_id e /\ _datetime e' = _datetime e.
Proof.
  unfold to, bind, lift, get, put.
  destruct (comprehension parse addrs) as [x|parsed]; [discriminate|].
  intros H. injection H as <-. exists parsed. repeat split; reflexivity.
Qed.

Lemma to_raises (e e' : Email) (addrs : list (MailAddress + string)) (x : exn) :
  to addrs e = (inl x, e') -> e' = e.
Proof.
  unfold to, bind, lift, get, put.
  destruct (comprehension parse addrs); intros H; [now injection H | discriminate].
Qed.

Lemma attach_data_appends (e e' : Email) (d : list byte) (fn : string)
      (mt : option string) (il : bool) (cid : option string) (uri : string) :
  attach_data d fn mt il cid e = (inr uri, e') ->
  exists a, _attachments e' = (_attachments e ++ [ a ])%list
            /\ data a = d /\ filename a = fn /\ inline a = il
            /\ uri = "cid:" ++ content_id a
            /\ _message_id e' = _message_id e /\ _datetime e' = _datetime e.
Proof.
  unfold attach_data, bind, get, put, ret, raise.
  destruct (Str.split Str.slash (_mimetype fn mt)) as [|mn [|sb [|x rest]]];
    try discriminate.
  intros H. injection H as <- <-. eexists. repeat split; reflexivity.
Qed.

Lemma as_mime_content_id (a : Attachment) :
  get_all (as_mime a) "Content-ID" = [ content_id a ]
  /\ get_all (as_mime a) "Content-Disposition"
     = [ (if inline a then "inline" else "attachment")
           ++ "; filename=" ++ Str.dquote ++ filename a ++ Str.dquote ].
Proof.
  unfold as_mime. rewrite !get_all_setitem. split; reflexivity.
Qed.

Lemma init_identity (now : float) (rnd : list byte) (from : MailAddress + string)
      (subject text : option string) (wrap : bool) (html : option string)
      (security : option SMIME) (e : Email) :
  __init__ now rnd from subject text wrap html security = inr e ->
  _message_id e = "<" ++ Str.hex rnd ++ "@mailcoil>" /\ _datetime e = now
  /\ recipient_count e = 0 /\ _attachments e = [].
Proof.
  unfold __init__. destruct (parse from); [discriminate|].
  intros H. injection H as <-. repeat split.
Qed.

End Builder.

(** ** The claims about [serialize] and its layers *)

Section Claims.

Context `{lib : Stdlib}.

(** C2. [serialize] raises [NoRecipientException] exactly when the recipient
    count is zero, raises [NoBodyException] exactly when there are
    recipients but neither text nor HTML, and whenever it raises, with
    these or with any other exception, the instance is left as it was. *)
Theorem C2_serialize_errors (e : Email) :
  ((exists m, fst (serialize e) = inl (NoRecipientException m))
     <-> recipient_count e = 0)
  /\ ((exists m, fst (serialize e) = inl (NoBodyException m))
        <-> (recipient_count e <> 0 /\ _text e = None /\ _html e = None))
  /\ (forall x, fst (serialize e) = inl x -> snd (serialize e) = e).
Proof.
  split; [|split]; [| |intros x _; apply serialize_state].
  - destruct (layer_text_cases e)
      as [[H0 Hrun] | [[H0 [Ht [Hh Hrun]]] | [H0 [Hb [body Hrun]]]]].
    + rewrite (serialize_raises _ _ _ Hrun). simpl. split.
      * intros _. exact H0.
      * intros _. eexists. reflexivity.
    + rewrite (serialize_raises _ _ _ Hrun). simpl. split.
      * intros [m Hm]. discriminate.
      * intros Hz. contradiction.
    + rewrite (serialize_returns _ _ Hrun). simpl. split.
      * intros [m Hm]. destruct (assembled_headers e) as [x|hs] eqn:Ha; [|discriminate].
        apply assembled_headers_error in Ha. subst x. discriminate.
      * intros Hz. contradiction.
  - destruct (layer_text_cases e)
      as [[H0 Hrun] | [[H0 [Ht [Hh Hrun]]] | [H0 [Hb [body Hrun]]]]].
    + rewrite (serialize_raises _ _ _ Hrun). simpl. split.
      * intros [m Hm]. discriminate.
      * intros [Hne _]. contradiction.
    + rewrite (serialize_raises _ _ _ Hrun). simpl. split.
      * intros _. repeat split; assumption.
      * intros _. eexists. reflexivity.
    + rewrite (serialize_returns _ _ Hrun). simpl. split.
      * intros [m Hm]. destruct (assembled_headers e) as [x|hs] eqn:Ha; [|discriminate].
        apply assembled_headers_error in Ha. subst x. discriminate.
      * intros [_ [Ht Hh]]. destruct Hb; contradiction.
Qed.

(** C3. Whenever [serialize] succeeds, [recipients] holds the mailbox
    strings of [to], then [cc], then [bcc], in order and without display
    names, whichever of the three lists are empty; and they are not all
    empty. *)
Theorem C3_recipients_order (e e' : Email) (s : SerializedEmail) :
  serialize e = (inr s, e') ->
  recipients s = (map mail (_to e) ++ map mail (_cc e) ++ map mail (_bcc e))%list
  /\ recipient_count e <> 0.
Proof.
  intros H. split.
  - apply serialize_inr in H as [body [hs [_ [_ [_ ->]]]]]. simpl.
    now rewrite !map_app.
  - destruct (layer_text_cases e) as [[_ Hr] | [[H0 _] | [H0 _]]]; try assumption.
    rewrite (serialize_raises _ _ _ Hr) in H. discriminate.
Qed.

(** C4. With recipients present, the body layer is: for text and HTML, a
    [multipart/alternative] whose first part is the plain-text leaf and
    whose second part is the HTML leaf; for text alone, the plain-text
    leaf; for HTML alone, the HTML leaf. *)
Theorem C4_body_layer (e : Email) :
  recipient_count e <> 0 ->
  (forall t h, _text e = Some t -> _html e = Some h ->
     _layer_text_content e
     = (inr (MIMEMultipart "alternative"
               [ text_leaf "plain" (plain_text e t); text_leaf "html" h ] []), e))
  /\ (forall t, _text e = Some t -> _html e = None ->
        _layer_text_content e = (inr (text_leaf "plain" (plain_text e t)), e))
  /\ (forall h, _text e = None -> _html e = Some h ->
        _layer_text_content e = (inr (text_leaf "html" h), e)).
Proof.
  intros H0. repeat split; intros.
  - now apply layer_text_both.
  - now apply layer_text_only_text.
  - now apply layer_text_only_html.
Qed.

(** C5. The attachment layer returns the body layer itself when there is
    no attachment; otherwise a [multipart/related] whose first part is the
    body layer, followed by the MIME leaf of each attachment in list order;
    and [attach_data] puts each new attachment at the end of that list. *)
Theorem C5_attachment_layer (e : Email) (body : MIMEBase) :
  (_attachments e = [] -> _layer_attachments body e = (inr body, e))
  /\ (_attachments e <> [] ->
      _layer_attachments body e
      = (inr (MIMEMultipart "related" (body :: map as_mime (_attachments e)) []), e))
  /\ (forall d fn mt il cid uri e',
        attach_data d fn mt il cid e = (inr uri, e') ->
        exists a, _attachments e' = (_attachments e ++ [ a ])%list
                  /\ data a = d /\ filename a = fn /\ inline a = il).
Proof.
  rewrite layer_attachments_run. repeat split.
  - intros ->. reflexivity.
  - intros Hne. destruct (_attachments e); [contradiction | reflexivity].
  - intros d fn mt il cid uri e' H.
    destruct (attach_data_appends _ _ _ _ _ _ _ _ H) as [a [Ha [Hd [Hf [Hi _]]]]].
    exists a. repeat split; assumption.
Qed.

(** C10. With no recipient and no body, [serialize] raises the
    no-recipient exception: the recipient check comes first. *)
Theorem C10_recipient_check_first (e : Email) :
  recipient_count e = 0 -> _text e = None -> _html e = None ->
  serialize e
  = (inl (NoRecipientException "Mail has no To, CC, or BCC set. Unable to serialize."), e).
Proof.
  intros H0 _ _. apply serialize_raises, layer_text_no_recipient, H0.
Qed.

(** C9. After a successful [serialize], a second call on the instance
    succeeds as well and both documents carry the same [Message-ID] and
    [Date] headers: the values stored at construction, [_message_id] and
    the rendering of [_datetime]. *)
Theorem C9_identity_headers_stable (e e1 : Email) (s1 : SerializedEmail) :
  serialize e = (inr s1, e1) ->
  exists s2 m1 m2,
    serialize e1 = (inr s2, e1)
    /\ content s1 = PyMessage m1 /\ content s2 = PyMessage m2
    /\ get_all m1 "Message-ID" = get_all m2 "Message-ID"
    /\ get_all m1 "Date" = get_all m2 "Date"
    /\ (exists inherited,
          get_all m1 "Message-ID" = (inherited ++ [ _message_id e ])%list)
    /\ (exists inherited,
          get_all m1 "Date" = (inherited ++ [ formatdate (_datetime e) true ])%list)
    /\ (_security e = None ->
          get_all m1 "Message-ID" = [ _message_id e ]
          /\ get_all m1 "Date" = [ formatdate (_datetime e) true ]).
Proof.
  intros H. pose proof H as Hs.
  apply serialize_inr in H as [body [hs [Hr [Ha [-> ->]]]]].
  destruct (assembled_message_id e hs Ha) as [Hid Hdate].
  eexists. exists (assign_all (enveloped e body) hs), (assign_all (enveloped e body) hs).
  split; [exact Hs|]. simpl.
  split; [reflexivity|]. split; [reflexivity|]. split; [reflexivity|].
  split; [reflexivity|].
  rewrite !get_all_assign_all, Hid, Hdate.
  split; [eexists; reflexivity|]. split; [eexists; reflexivity|].
  intros Hsec. rewrite !get_all_assigned by reflexivity.
  rewrite (enveloped_bare e body Hr Hsec). split; reflexivity.
Qed.

End Claims.

(** ** Addresses *)

Section Addresses.

Context `{lib : Stdlib}.








Lemma normalize_empty : normalize "" = "".
Proof. reflexivity. Qed.


Lemma parseable_le (s : string) :
  length (parseable_mailboxes s) <= length (getaddresses [ s ]).
Proof. apply filter_length_le. Qed.

(** [parse] fails when the library returns two or more pairs, or none. *)
Lemma parse_rejects_several (s : string) :
  length (getaddresses [ s ]) <> 1 -> parse (inr s) = inl ValueError.
Proof.
  unfold parse. destruct (getaddresses [ s ]) as [|[n m] [|p rest]]; simpl;
    intros H; try reflexivity. contradiction.
Qed.

(** The pair [("", "")] by which the library reports input it could not
    parse passes the destructuring. *)
Lemma parse_accepts_marker (s : string) :
  getaddresses [ s ] = [ ("", "") ] ->
  parse (inr s) = inr {| mail := ""; name := None |}.
Proof. unfold parse. intros ->. reflexivity. Qed.

End Addresses.

(** ** Paragraph wrapping *)

Section Wrapping.

Context `{lib : Stdlib}.

Lemma parwrapped_cases (p : string) :
  (textwrap_wrap p 72 = [] /\ parwrapped p = [ "" ])
  \/ (textwrap_wrap p 72 <> [] /\ parwrapped p = textwrap_wrap p 72).
Proof.
  unfold parwrapped. destruct (textwrap_wrap p 72); simpl.
  - left. split; reflexivity.
  - right. split; [discriminate | reflexivity].
Qed.

Lemma parwrapped_not_nil (p : string) : parwrapped p <> [].
Proof.
  destruct (parwrapped_cases p) as [[_ ->] | [H ->]]; [discriminate | exact H].
Qed.



Lemma wrapped_lines_clean (paragraphs : list string) :
  line_break_free paragraphs = true ->
  forallb (fun line => negb (Str.contains Str.newline line))
          (concat (map parwrapped paragraphs)) = true.
Proof.
  unfold line_break_free. induction paragraphs as [|p ps IH]; simpl; [reflexivity|].
  intros H. apply andb_true_iff in H as [Hp Hps].
  rewrite forallb_app, (IH Hps), andb_true_r.
  destruct (parwrapped_cases p) as [[_ ->] | [_ ->]]; [reflexivity | exact Hp].
Qed.

Lemma wrap_paragraphs_lines (text : string) :
  _wrap_paragraphs text
  = Str.join (String Str.newline "")
             (concat (map parwrapped (Str.split Str.newline text))).
Proof. unfold _wrap_paragraphs. rewrite fold_left_extend. reflexivity. Qed.

(** The lines of the wrapped text are the lines of the paragraphs, group
    after group. *)
Lemma split_wrapped (t : string) :
  line_break_free (Str.split Str.newline t) = true ->
  Str.split Str.newline (_wrap_paragraphs t)
  = concat (map parwrapped (Str.split Str.newline t)).
Proof.
  intros Hc. rewrite wrap_paragraphs_lines. apply split_join.
  - pose proof (split_not_nil Str.newline t) as Hne.
    destruct (Str.split Str.newline t) as [|p ps]; [congruence|]. simpl.
    pose proof (parwrapped_not_nil p) as Hp.
    destruct (parwrapped p); [congruence | discriminate].
  - exact (wrapped_lines_clean _ Hc).
Qed.





End Wrapping.

(** ** The pipeline on concrete messages *)

Section Runs.

Import Sample.

Example note_built :
  exists e0,
    __init__ 0 urandom16 (inr "Alice <alice@example.org>")
             None (Some "hello") false None None = inr e0
    /\ to [ inr "bob@example.org" ] e0 = (inr tt, note).
Proof. eexists. split; reflexivity. Qed.

Example newsletter_built :
  (_ <- to [ inr "bob@example.org" ] ;;
   _ <- cc [ inr "Carol <carol@example.org>" ] ;;
   _ <- bcc [ inr "<dave@example.org>" ] ;;
   _ <- attach_data [ x89; x50; x4e; x47 ] "logo.png" None true None ;;
   attach_data [ x25; x50; x44; x46 ] "report.pdf" None false None)%py
    {| _from := alice; _to := []; _cc := []; _bcc := [];
       _subject := Some "News"; _text := Some news_text; _wrap_text := true;
       _html := Some "<p>News</p>"; _security := None; _datetime := 0;
       _message_id := message_id; _attachments := [] |}
  = (inr "cid:cid1", newsletter).
Proof. vm_compute. reflexivity. Qed.

Example to_rejects_two_mailboxes :
  to [ inr "bob@example.org"; inr "a@x.org, b@x.org" ] blank = (inl ValueError, blank).
Proof. reflexivity. Qed.

Example attach_rejects_bad_mimetype :
  attach_data [] "notes" (Some "text") false None blank = (inl ValueError, blank).
Proof. reflexivity. Qed.

Example news_reflowed : _wrap_paragraphs news_text = news_wrapped.
Proof. reflexivity. Qed.

Example hollow_raises :
  serialize hollow = (inl (NoBodyException "Mail has no text or HTML content."), hollow).
Proof. reflexivity. Qed.

End Runs.

(** C1. What [serialize] stores in [content] is the assembled message
    object, never a [bytes] value: on the note from Alice to Bob the field
    holds the entity with its five headers. *)
Theorem C1_content_is_message_object :
  serialize (lib := Sample.cpython) Sample.note = (inr Sample.note_serialized, Sample.note)
  /\ content Sample.note_serialized = PyMessage Sample.note_document
  /\ forall b, content Sample.note_serialized <> PyBytes b.
Proof.
  split; [reflexivity|]. split; [reflexivity|]. intros b. discriminate.
Qed.

Lemma serialize_content_is_message `{lib : Stdlib} (e e' : Email) (s : SerializedEmail) :
  serialize e = (inr s, e') -> exists msg, content s = PyMessage msg.
Proof.
  intros H. apply serialize_inr in H as [body [hs [_ [_ [_ ->]]]]].
  eexists. reflexivity.
Qed.

Example umlaut_raises :
  serialize (lib := Sample.cpython) Sample2.note_umlaut
  = (inl UnicodeEncodeError, Sample2.note_umlaut).
Proof. reflexivity. Qed.

(** ** The plain library obeys the laws of the plain fragment *)














(** ** The claims at concrete inputs *)

Lemma C3_witness :
  serialize (lib := Sample.cpython) Sample.newsletter
  = (inr Sample2.newsletter_serialized, Sample.newsletter)
  /\ recipients Sample2.newsletter_serialized
     = [ "bob@example.org"; "carol@example.org"; "dave@example.org" ]
  /\ recipient_count Sample.newsletter <> 0.
Proof.
  split; [reflexivity|].
  apply (C3_recipients_order (lib := Sample.cpython) Sample.newsletter Sample.newsletter
           Sample2.newsletter_serialized).
  reflexivity.
Defined.

Lemma C4_witness :
  recipient_count Sample.newsletter <> 0
  /\ _layer_text_content (lib := Sample.cpython) Sample.newsletter
     = (inr Sample.news_body, Sample.newsletter).
Proof.
  split; [discriminate|].
  apply (proj1 (C4_body_layer (lib := Sample.cpython) Sample.newsletter ltac:(discriminate))
               Sample.news_text "<p>News</p>"); reflexivity.
Defined.

Lemma C5_witness :
  _attachments Sample.newsletter <> []
  /\ _layer_attachments (lib := Sample.cpython) Sample.news_body Sample.newsletter
     = (inr (MIMEMultipart "related"
               [ Sample.news_body; as_mime Sample.logo; as_mime Sample.report ] []),
        Sample.newsletter).
Proof.
  split; [discriminate|].
  apply (proj1 (proj2 (C5_attachment_layer (lib := Sample.cpython)
                         Sample.newsletter Sample.news_body))).
  discriminate.
Defined.

Lemma C10_witness :
  recipient_count Sample.blank = 0
  /\ _text Sample.blank = None /\ _html Sample.blank = None
  /\ serialize (lib := Sample.cpython) Sample.blank
     = (inl (NoRecipientException "Mail has no To, CC, or BCC set. Unable to serialize."),
        Sample.blank).
Proof.
  split; [reflexivity|]. split; [reflexivity|]. split; [reflexivity|].
  apply (C10_recipient_check_first (lib := Sample.cpython) Sample.blank); reflexivity.
Defined.

Lemma C9_witness :
  serialize (lib := Sample.cpython) Sample.note = (inr Sample.note_serialized, Sample.note)
  /\ exists s2 m1 m2,
       serialize (lib := Sample.cpython) Sample.note = (inr s2, Sample.note)
       /\ content Sample.note_serialized = PyMessage m1 /\ content s2 = PyMessage m2
       /\ get_all m1 "Message-ID" = get_all m2 "Message-ID"
       /\ get_all m1 "Date" = get_all m2 "Date"
       /\ (exists inherited,
             get_all m1 "Message-ID" = (inherited ++ [ Sample.message_id ])%list)
       /\ (exists inherited,
             get_all m1 "Date" = (inherited ++ [ "Thu, 01 Jan 1970 00:00:00 +0000" ])%list)
       /\ (_security Sample.note = None ->
             get_all m1 "Message-ID" = [ Sample.message_id ]
             /\ get_all m1 "Date" = [ "Thu, 01 Jan 1970 00:00:00 +0000" ]).
Proof.
  split; [reflexivity|].
  apply (C9_identity_headers_stable (lib := Sample.cpython)
           Sample.note Sample.note Sample.note_serialized).
  reflexivity.
Defined.


(** What the round trip of the quoted name gives: the name without the
    blanks the quotes protected. *)
Example quoted_round_trip :
  encode (lib := Plain.library) Plain.spaced_a = inr " a  <j@x.de>"
  /\ parse (lib := Plain.library) (inr " a  <j@x.de>") = inr Plain.trimmed_a.
Proof. split; reflexivity. Qed.


(** C7. On input that holds no mailbox the library answers with its
    failure marker, the single pair [("", "")], and that pair passes the
    one-element destructuring of [parse]: the empty string, a lone
    semicolon and a string with two mailboxes are all accepted and give an
    address with an empty mailbox. *)
Theorem C7_parse_accepts_unparseable :
  getaddresses (Stdlib := Sample.cpython) [ "" ] = [ ("", "") ]
  /\ parse (lib := Sample.cpython) (inr "") = inr {| mail := ""; name := None |}
  /\ parse (lib := Sample.cpython) (inr ";") = inr {| mail := ""; name := None |}
  /\ parse (lib := Sample.cpython) (inr "alice@example.com <bob@example.com>")
     = inr {| mail := ""; name := None |}.
Proof. repeat split. Qed.



Example news_lines :
  Str.split Str.newline (_wrap_paragraphs (lib := Sample.cpython) Sample.news_text)
  = [ "The quick brown fox jumps over the lazy dog and keeps running through";
      "the forest until night."; ""; "Bye" ].
Proof. reflexivity. Qed.

(** * Further properties of the module *)

(** ** Attachments *)

Section Attachments.

Context `{lib : Stdlib}.

Lemma attach_data_run (e : Email) (d : list byte) (fn : string)
      (mt : option string) (il : bool) (cid : option string) :
  attach_data d fn mt il cid e
  = match Str.split Str.slash (_mimetype fn mt) with
    | [ mn; sb ] =>
        let c := match cid with
                 | None => "cid" ++ Str.of_nat (length (_attachments e))
                 | Some c => c
                 end in
        (inr ("cid:" ++ c),
         with_attachments e
           (_attachments e
              ++ [ {| data := d; maintype := mn; subtype := sb; filename := fn;
                      inline := il; content_id := c |} ])%list)
    | _ => (inl ValueError, e)
    end.
Proof.
  unfold attach_data, bind, get, put, ret, raise.
  destruct (Str.split Str.slash (_mimetype fn mt)) as [|mn [|sb [|x rest]]]; reflexivity.
Qed.

Lemma split_two (sep : ascii) (s : string) :
  count_char sep s = 1 ->
  exists a b, Str.split sep s = [ a; b ]
              /\ a ++ String sep b = s
              /\ Str.contains sep a = false /\ Str.contains sep b = false.
Proof.
  intros Hc. pose proof (split_length sep s) as Hl.
  pose proof (join_split sep s) as Hj. pose proof (split_fields_clean sep s) as Hf.
  rewrite Hc in Hl.
  destruct (Str.split sep s) as [|a [|b [|x rest]]]; try discriminate Hl.
  exists a, b. inversion Hf as [|? ? Ha Hr]; subst. inversion Hr; subst.
  repeat split; assumption.
Qed.

(** X1. [attach_data] raises [ValueError] and leaves the instance alone
    exactly when the MIME type it resolved does not hold exactly one slash;
    otherwise it succeeds, and main type and subtype of the new attachment
    are the two slash-free halves of that type. *)
Theorem X1_attach_data_mimetype (e : Email) (d : list byte) (fn : string)
        (mt : option string) (il : bool) (cid : option string) :
  (attach_data d fn mt il cid e = (inl ValueError, e)
     <-> count_char Str.slash (_mimetype fn mt) <> 1)
  /\ (count_char Str.slash (_mimetype fn mt) = 1 ->
      exists uri a,
        attach_data d fn mt il cid e
        = (inr uri, with_attachments e (_attachments e ++ [ a ])%list)
        /\ maintype a ++ "/" ++ subtype a = _mimetype fn mt
        /\ Str.contains Str.slash (maintype a) = false
        /\ Str.contains Str.slash (subtype a) = false
        /\ data a = d /\ filename a = fn /\ inline a = il).
Proof.
  rewrite attach_data_run. split.
  - pose proof (split_length Str.slash (_mimetype fn mt)) as Hl.
    destruct (Str.split Str.slash (_mimetype fn mt)) as [|mn [|sb [|x rest]]];
      simpl in Hl; split; intros H; try reflexivity; try discriminate; try lia.
  - intros Hc. destruct (split_two _ _ Hc) as [a [b [Hs [Hj [Ha Hb]]]]].
    rewrite Hs. eexists. eexists. split; [reflexivity|]. simpl.
    repeat split; assumption.
Qed.

(** X4. Without an override, a file name whose type the type table does
    not know is attached as [application/octet-stream], and the call
    succeeds. *)
Theorem X4_unknown_type_fallback (e : Email) (d : list byte) (fn : string)
        (il : bool) (cid : option string) :
  fst (guess_type fn) = None ->
  exists uri a,
    attach_data d fn None il cid e
    = (inr uri, with_attachments e (_attachments e ++ [ a ])%list)
    /\ maintype a = "application" /\ subtype a = "octet-stream"
    /\ data a = d /\ filename a = fn.
Proof.
  intros Hg. rewrite attach_data_run. unfold _mimetype. rewrite Hg. simpl.
  eexists. eexists. split; [reflexivity|]. repeat split.
Qed.

Lemma map_content_id_snoc (l : list Attachment) (a : Attachment) :
  map content_id (l ++ [ a ]) = (map content_id l ++ [ content_id a ])%list.
Proof. now rewrite map_app. Qed.

Lemma automatic_name_inj : Injective (fun i => "cid" ++ Str.of_nat i).
Proof.
  intros i j H. simpl in H. injection H as H. now apply of_nat_inj.
Qed.

Lemma automatic_ids_NoDup (l : list Attachment) :
  automatic_ids l -> NoDup (map content_id l).
Proof.
  unfold automatic_ids. intros ->.
  apply Injective_map_NoDup; [exact automatic_name_inj | apply seq_NoDup].
Qed.

(** X2. As long as the caller leaves the content id to [attach_data], the
    attachment at index [i] is named [cid] followed by [i]; the names of a
    message are then pairwise different, and the URI returned is [cid:]
    followed by the new name. *)
Theorem X2_automatic_ids_unique (e e' : Email) (d : list byte) (fn : string)
        (mt : option string) (il : bool) (uri : string) :
  automatic_ids (_attachments e) ->
  attach_data d fn mt il None e = (inr uri, e') ->
  automatic_ids (_attachments e')
  /\ NoDup (map content_id (_attachments e'))
  /\ uri = "cid:cid" ++ Str.of_nat (length (_attachments e)).
Proof.
  intros Hauto. rewrite attach_data_run.
  destruct (Str.split Str.slash (_mimetype fn mt)) as [|mn [|sb [|x rest]]];
    try discriminate.
  intros H. injection H as <- <-. simpl.
  assert (Hnew : automatic_ids
                   (_attachments e
                      ++ [ {| data := d; maintype := mn; subtype := sb; filename := fn;
                              inline := il;
                              content_id := "cid" ++ Str.of_nat (length (_attachments e)) |} ])).
  { unfold automatic_ids in *. rewrite map_content_id_snoc, length_app. simpl.
    rewrite Nat.add_1_r, seq_S, map_app, Hauto. reflexivity. }
  split; [exact Hnew|]. split; [|reflexivity]. apply automatic_ids_NoDup, Hnew.
Qed.

(** X3. [attach_data] does not compare the content id of a new attachment
    with those in use: when the id it is given, or the one it generates, is
    already taken, the message ends up with two attachments of that id. *)
Theorem X3_content_id_collision (e e' : Email) (d : list byte) (fn : string)
        (mt : option string) (il : bool) (cid : option string) (uri : string) :
  In (match cid with
      | None => "cid" ++ Str.of_nat (length (_attachments e))
      | Some c => c
      end) (map content_id (_attachments e)) ->
  attach_data d fn mt il cid e = (inr uri, e') ->
  ~ NoDup (map content_id (_attachments e')).
Proof.
  intros Hin. rewrite attach_data_run.
  destruct (Str.split Str.slash (_mimetype fn mt)) as [|mn [|sb [|x rest]]];
    try discriminate.
  intros H. injection H as <- <-. simpl. rewrite map_content_id_snoc. simpl.
  intros Hnd. apply NoDup_remove_2 in Hnd. rewrite app_nil_r in Hnd. contradiction.
Qed.

End Attachments.

(** ** Recipients *)

Section Recipients.

Context `{lib : Stdlib}.

Lemma comprehension_inr {A B} (f : A -> result B) (l : list A) (ys : list B) :
  comprehension f l = inr ys <-> Forall2 (fun x y => f x = inr y) l ys.
Proof.
  revert ys. induction l as [|x l IH]; intros ys; simpl.
  - split; intros H; [injection H as <-; constructor | now inversion H].
  - destruct (f x) as [ex|y] eqn:Hx.
    + split; intros H; [discriminate | inversion H; congruence].
    + destruct (comprehension f l) as [el|ys'] eqn:Hl.
      * split; intros H; [discriminate|]. inversion H as [|? ? ? ? _ Hr]; subst.
        apply IH in Hr. discriminate.
      * split; intros H.
        -- injection H as <-. constructor; [exact Hx | now apply IH].
        -- inversion H as [|? y0 ? ys0 Hy Hr]; subst. apply IH in Hr.
           rewrite Hx in Hy. congruence.
Qed.

Lemma comprehension_inl {A B} (f : A -> result B) (l : list A) :
  (exists x, comprehension f l = inl x) <-> Exists (fun a => exists x, f a = inl x) l.
Proof.
  induction l as [|a l IH]; simpl.
  - split; [intros [x H]; discriminate | intros H; inversion H].
  - destruct (f a) as [ea|y] eqn:Ha.
    + split; [intros _; left; now exists ea | intros _; now exists ea].
    + destruct (comprehension f l) as [el|ys].
      * split; [intros _; right; apply IH; now exists el | intros _; now exists el].
      * split; [intros [x H]; discriminate|].
        intros H. inversion H as [? ? [x Hx]|? ? Hr]; subst; [congruence|].
        apply IH in Hr as [x Hx]. discriminate.
Qed.

Lemma comprehension_app {A B} (f : A -> result B) (l1 l2 : list A) :
  comprehension f (l1 ++ l2)
  = match comprehension f l1 with
    | inl x => inl x
    | inr y1 => match comprehension f l2 with
                | inl x => inl x
                | inr y2 => inr (y1 ++ y2)%list
                end
    end.
Proof.
  induction l1 as [|a l1 IH]; simpl.
  - destruct (comprehension f l2); reflexivity.
  - destruct (f a); [reflexivity|]. rewrite IH.
    destruct (comprehension f l1); [reflexivity|].
    destruct (comprehension f l2); reflexivity.
Qed.

Lemma to_run (e : Email) (addrs : list (MailAddress + string)) :
  to addrs e = match comprehension parse addrs with
               | inl x => (inl x, e)
               | inr parsed => (inr tt, with_to e (_to e ++ parsed)%list)
               end.
Proof. unfold to, bind, lift, get, put. destruct (comprehension parse addrs); reflexivity. Qed.

Lemma cc_run (e : Email) (addrs : list (MailAddress + string)) :
  cc addrs e = match comprehension parse addrs with
               | inl x => (inl x, e)
               | inr parsed => (inr tt, with_cc e (_cc e ++ parsed)%list)
               end.
Proof. unfold cc, bind, lift, get, put. destruct (comprehension parse addrs); reflexivity. Qed.

Lemma bcc_run (e : Email) (addrs : list (MailAddress + string)) :
  bcc addrs e = match comprehension parse addrs with
                | inl x => (inl x, e)
                | inr parsed => (inr tt, with_bcc e (_bcc e ++ parsed)%list)
                end.
Proof. unfold bcc, bind, lift, get, put. destruct (comprehension parse addrs); reflexivity. Qed.

(** X5. [to], [cc] and [bcc] add all the addresses they are given or none:
    if one address does not parse, the call raises and the instance is as
    before; if all parse, the parsed addresses are appended to the list of
    the method, in the order given, and the recipient count grows by their
    number. *)
Theorem X5_recipients_all_or_nothing (e : Email) (addrs : list (MailAddress + string)) :
  (Exists (fun a => exists x, parse a = inl x) addrs ->
   exists x, to addrs e = (inl x, e) /\ cc addrs e = (inl x, e) /\ bcc addrs e = (inl x, e))
  /\ (Forall (fun a => exists p, parse a = inr p) addrs ->
      exists parsed,
        Forall2 (fun a p => parse a = inr p) addrs parsed
        /\ to addrs e = (inr tt, with_to e (_to e ++ parsed)%list)
        /\ cc addrs e = (inr tt, with_cc e (_cc e ++ parsed)%list)
        /\ bcc addrs e = (inr tt, with_bcc e (_bcc e ++ parsed)%list)
        /\ recipient_count (with_to e (_to e ++ parsed)%list)
           = recipient_count e + length addrs
        /\ recipient_count (with_cc e (_cc e ++ parsed)%list)
           = recipient_count e + length addrs
        /\ recipient_count (with_bcc e (_bcc e ++ parsed)%list)
           = recipient_count e + length addrs).
Proof.
  rewrite to_run, cc_run, bcc_run. split.
  - intros H. apply comprehension_inl in H as [x Hx]. rewrite Hx. now exists x.
  - intros H. destruct (comprehension parse addrs) as [x|parsed] eqn:Hc.
    + assert (Hex : exists x, comprehension parse addrs = inl x) by now exists x.
      apply comprehension_inl in Hex. apply Exists_exists in Hex as [a [Hin [y Hy]]].
      rewrite Forall_forall in H. destruct (H a Hin) as [p Hp]. congruence.
    + exists parsed. apply comprehension_inr in Hc.
      pose proof (Forall2_length Hc) as Hlen.
      unfold recipient_count. simpl. rewrite !length_app.
      repeat split; try assumption; lia.
Qed.

(** X6. One call of [to] with two batches of addresses succeeds exactly
    when the two calls in a row do, and then leaves the same instance; when
    the second batch does not parse, the single call adds nothing, while of
    the two calls the first has taken effect. *)
Theorem X6_to_batches (e : Email) (a b : list (MailAddress + string)) :
  (forall e', to (a ++ b) e = (inr tt, e')
              <-> exists e1, to a e = (inr tt, e1) /\ to b e1 = (inr tt, e'))
  /\ (forall e1 x, to a e = (inr tt, e1) -> to b e1 = (inl x, e1) ->
        to (a ++ b) e = (inl x, e)).
Proof.
  rewrite !to_run, comprehension_app. split.
  - intros e'. destruct (comprehension parse a) as [xa|ya].
    + split; [discriminate | intros [e1 [H _]]; discriminate].
    + split.
      * intros H. eexists. split; [reflexivity|]. rewrite to_run.
        destruct (comprehension parse b) as [xb|yb]; [discriminate|].
        injection H as <-. simpl. now rewrite app_assoc.
      * intros [e1 [H1 H2]]. injection H1 as <-. rewrite to_run in H2.
        destruct (comprehension parse b) as [xb|yb]; [discriminate|].
        injection H2 as <-. simpl. now rewrite app_assoc.
  - intros e1 x H1 H2. destruct (comprehension parse a) as [xa|ya]; [discriminate|].
    injection H1 as <-. rewrite to_run in H2.
    destruct (comprehension parse b) as [xb|yb]; [|discriminate].
    injection H2 as <-. reflexivity.
Qed.

End Recipients.

(** ** Programs of method calls *)

Section Programs.

Context `{lib : Stdlib}.

Lemma grown_refl (e : Email) : grown_from e e.
Proof.
  unfold grown_from. repeat split; try reflexivity; exists []; now rewrite app_nil_r.
Qed.

Lemma grown_trans (e1 e2 e3 : Email) :
  grown_from e1 e2 -> grown_from e2 e3 -> grown_from e1 e3.
Proof.
  unfold grown_from.
  intros [Hm [Hd [Hf [Hw [[t Ht] [[c Hc] [[b Hb] [a Ha]]]]]]]]
         [Hm' [Hd' [Hf' [Hw' [[t' Ht'] [[c' Hc'] [[b' Hb'] [a' Ha']]]]]]]].
  repeat split; try congruence.
  - exists (t ++ t')%list. rewrite Ht', Ht. now rewrite app_assoc.
  - exists (c ++ c')%list. rewrite Hc', Hc. now rewrite app_assoc.
  - exists (b ++ b')%list. rewrite Hb', Hb. now rewrite app_assoc.
  - exists (a ++ a')%list. rewrite Ha', Ha. now rewrite app_assoc.
Qed.

Ltac grown_by l :=
  unfold grown_from; simpl; repeat split;
  first [ now exists l | exists []; now rewrite app_nil_r ].

Lemma run_call_grows (c : call) (e e' : Email) (r : result unit) :
  run_call c e = (r, e') -> grown_from e e'.
Proof.
  destruct c as [l|l|l|d fn mt il cid|v|v|v|v]; simpl.
  - rewrite to_run. destruct (comprehension parse l) as [x|parsed]; intros H;
      injection H as _ <-; [apply grown_refl | grown_by parsed].
  - rewrite cc_run. destruct (comprehension parse l) as [x|parsed]; intros H;
      injection H as _ <-; [apply grown_refl | grown_by parsed].
  - rewrite bcc_run. destruct (comprehension parse l) as [x|parsed]; intros H;
      injection H as _ <-; [apply grown_refl | grown_by parsed].
  - unfold bind. rewrite attach_data_run.
    destruct (Str.split Str.slash (_mimetype fn mt)) as [|mn [|sb [|x rest]]];
      intros H; injection H as _ <-; try apply grown_refl.
    unfold grown_from; simpl; repeat split;
      first [ now eexists | exists []; now rewrite app_nil_r ].
  - intros H. injection H as _ <-. grown_by (@nil MailAddress).
  - intros H. injection H as _ <-. grown_by (@nil MailAddress).
  - intros H. injection H as _ <-. grown_by (@nil MailAddress).
  - intros H. injection H as _ <-. grown_by (@nil MailAddress).
Qed.

Lemma grown_count (e e' : Email) :
  grown_from e e' -> recipient_count e <= recipient_count e'.
Proof.
  intros [_ [_ [_ [_ [[t Ht] [[c Hc] [[b Hb] _]]]]]]].
  unfold recipient_count. rewrite Ht, Hc, Hb, !length_app. lia.
Qed.

Lemma run_calls_grow (cs : list call) (e e' : Email) (r : result unit) :
  run_calls cs e = (r, e') -> grown_from e e'.
Proof.
  revert e. induction cs as [|c cs IH]; intros e H; simpl in H.
  - injection H as _ <-. apply grown_refl.
  - unfold bind in H. destruct (run_call c e) as [[x|[]] e1] eqn:Hc.
    + injection H as _ <-. exact (run_call_grows _ _ _ _ Hc).
    + apply (grown_trans e e1 e'); [exact (run_call_grows _ _ _ _ Hc) | now apply IH].
Qed.

(** X7. Whatever calls of [to], [cc], [bcc], [attach_data] and property
    assignments a program makes, and whether or not one of them raises, the
    instance keeps its message id, creation time, sender and wrap flag, and
    its recipient lists and attachment list only grow at the end: nothing
    removes or reorders a recipient or an attachment. *)
Theorem X7_program_invariants (cs : list call) (e e' : Email) (r : result unit) :
  run_calls cs e = (r, e') ->
  grown_from e e' /\ recipient_count e <= recipient_count e'.
Proof.
  intros H. pose proof (run_calls_grow _ _ _ _ H) as Hg.
  split; [exact Hg | now apply grown_count].
Qed.

Lemma serialize_no_recipient (e : Email) (m : string) :
  fst (serialize e) = inl (NoRecipientException m) -> recipient_count e = 0.
Proof.
  destruct (layer_text_cases e) as [[H0 Hr] | [[_ [_ [_ Hr]]] | [_ [_ [body Hr]]]]].
  - intros _. exact H0.
  - rewrite (serialize_raises _ _ _ Hr). discriminate.
  - rewrite (serialize_returns _ _ Hr). simpl.
    destruct (assembled_headers e) as [x|hs] eqn:Ha; [|discriminate].
    apply assembled_headers_error in Ha. subst x. discriminate.
Qed.

(** X8. The identity of a message survives the program that completes it:
    if [serialize] succeeds before and after a sequence of method calls and
    assignments, the [Message-ID] and [Date] headers it assigns are the same
    in both documents; and once there is a recipient, no such sequence
    brings back the no-recipient exception. *)
Theorem X8_identity_survives_program (cs : list call) (e e' : Email) (r : result unit) :
  run_calls cs e = (r, e') ->
  (forall s1 s2 e1 e2,
      serialize e = (inr s1, e1) -> serialize e' = (inr s2, e2) ->
      exists m1 m2,
        content s1 = PyMessage m1 /\ content s2 = PyMessage m2
        /\ last (get_all m1 "Message-ID") "" = last (get_all m2 "Message-ID") ""
        /\ last (get_all m1 "Date") "" = last (get_all m2 "Date") ""
        /\ last (get_all m2 "Message-ID") "" = _message_id e)
  /\ (recipient_count e <> 0 ->
      forall m, fst (serialize e') <> inl (NoRecipientException m)).
Proof.
  intros Hrun. pose proof (run_calls_grow _ _ _ _ Hrun) as Hg.
  split.
  - intros s1 s2 e1 e2 H1 H2.
    apply serialize_inr in H1 as [b1 [h1 [_ [Ha1 [_ ->]]]]].
    apply serialize_inr in H2 as [b2 [h2 [_ [Ha2 [_ ->]]]]].
    destruct Hg as [Hm [Hd _]].
    destruct (assembled_message_id e h1 Ha1) as [Hid1 Hdate1].
    destruct (assembled_message_id e' h2 Ha2) as [Hid2 Hdate2].
    eexists. eexists. split; [reflexivity|]. split; [reflexivity|].
    rewrite !get_all_assign_all, Hid1, Hid2, Hdate1, Hdate2, !last_last, Hm, Hd.
    repeat split.
  - intros H0 m Hs. apply serialize_no_recipient in Hs.
    apply grown_count in Hg. lia.
Qed.

End Programs.

(** ** Construction and the message id *)

Section Construction.

Context `{lib : Stdlib}.

Lemma unhex_pair (b : byte) :
  Byte.of_nat (16 * digit_value (Str.hexdigit (Byte.to_nat b / 16))
               + digit_value (Str.hexdigit (Byte.to_nat b mod 16))) = Some b.
Proof. destruct b; vm_compute; reflexivity. Qed.

Lemma hex_cons (b : byte) (rest : list byte) :
  Str.hex (b :: rest)
  = String (Str.hexdigit (Byte.to_nat b / 16))
           (String (Str.hexdigit (Byte.to_nat b mod 16)) (Str.hex rest)).
Proof. reflexivity. Qed.

Lemma unhex_hex (b : list byte) : unhex (Str.hex b) = Some b.
Proof.
  induction b as [|x rest IH]; [reflexivity|].
  rewrite hex_cons.
  change (unhex (String (Str.hexdigit (Byte.to_nat x / 16))
                        (String (Str.hexdigit (Byte.to_nat x mod 16)) (Str.hex rest))))
    with (match Byte.of_nat (16 * digit_value (Str.hexdigit (Byte.to_nat x / 16))
                             + digit_value (Str.hexdigit (Byte.to_nat x mod 16))),
                unhex (Str.hex rest) with
          | Some c, Some cs => Some (c :: cs)
          | _, _ => None
          end).
  rewrite unhex_pair, IH. reflexivity.
Qed.

Lemma hex_inj (b1 b2 : list byte) : Str.hex b1 = Str.hex b2 -> b1 = b2.
Proof.
  intros H. pose proof (unhex_hex b1) as H1. rewrite H, unhex_hex in H1. congruence.
Qed.

Lemma hex_length (b : list byte) : String.length (Str.hex b) = 2 * length b.
Proof. induction b as [|x rest IH]; [reflexivity|]. rewrite hex_cons. simpl. lia. Qed.

Lemma append_length (s t : string) :
  String.length (s ++ t) = String.length s + String.length t.
Proof. induction s as [|c s IH]; simpl; [reflexivity | now rewrite IH]. Qed.

Lemma append_cancel_r (s1 s2 t : string) : s1 ++ t = s2 ++ t -> s1 = s2.
Proof.
  revert s2. induction s1 as [|c s1 IH]; intros [|d s2] H; simpl in H.
  - reflexivity.
  - apply (f_equal String.length) in H. simpl in H. rewrite append_length in H. lia.
  - apply (f_equal String.length) in H. simpl in H. rewrite append_length in H. lia.
  - injection H as -> H. f_equal. now apply IH.
Qed.

(** X9. Construction fails exactly when the sender does not parse, with the
    exception of the parse; an instance it returns has no recipient, so that
    [serialize] on it raises the no-recipient exception whatever body was
    passed to the constructor. *)
Theorem X9_fresh_email (now : float) (rnd : list byte) (from : MailAddress + string)
        (subj txt : option string) (wrap : bool) (htm : option string)
        (sec : option SMIME) :
  (forall x, __init__ now rnd from subj txt wrap htm sec = inl x <-> parse from = inl x)
  /\ (forall e, __init__ now rnd from subj txt wrap htm sec = inr e ->
        parse from = inr (_from e)
        /\ _text e = txt /\ _html e = htm /\ _subject e = subj
        /\ serialize e
           = (inl (NoRecipientException
                     "Mail has no To, CC, or BCC set. Unable to serialize."), e)).
Proof.
  unfold __init__. destruct (parse from) as [x0|a]; split.
  - intros x. split; intros H; injection H as <-; reflexivity.
  - intros e H. discriminate.
  - intros x. split; intros H; discriminate.
  - intros e H. injection H as <-. simpl. repeat split.
Qed.

(** X10. The message id is the hexadecimal spelling of the random bytes
    between [<] and [@mailcoil>]: two instances have the same message id
    exactly when they were built from the same random bytes, and for 16
    bytes the id is 43 characters long. *)
Theorem X10_message_id_of_random (n1 n2 : float) (r1 r2 : list byte)
        (f1 f2 : MailAddress + string) (s1 s2 t1 t2 : option string) (w1 w2 : bool)
        (h1 h2 : option string) (c1 c2 : option SMIME) (e1 e2 : Email) :
  __init__ n1 r1 f1 s1 t1 w1 h1 c1 = inr e1 ->
  __init__ n2 r2 f2 s2 t2 w2 h2 c2 = inr e2 ->
  (_message_id e1 = _message_id e2 <-> r1 = r2)
  /\ String.length (_message_id e1) = 2 * length r1 + 11.
Proof.
  intros H1 H2.
  apply init_identity in H1 as [-> _]. apply init_identity in H2 as [-> _].
  split; [split|].
  - intros H. simpl in H. injection H as H.
    apply append_cancel_r in H. now apply hex_inj.
  - intros ->. reflexivity.
  - simpl. rewrite append_length, hex_length. simpl. lia.
Qed.

End Construction.

(** ** The document *)

Section Document.

Context `{lib : Stdlib}.

Lemma sans_headers_setitem (msg : MIMEBase) (k v : string) :
  sans_headers (setitem msg k v) = sans_headers msg.
Proof. destruct msg; reflexivity. Qed.

Lemma sans_headers_assign_all (msg : MIMEBase) (hs : list (string * string)) :
  sans_headers (assign_all msg hs) = sans_headers msg.
Proof.
  revert msg. induction hs as [|[k v] hs IH]; intros msg; [reflexivity|].
  change (assign_all msg ((k, v) :: hs)) with (assign_all (setitem msg k v) hs).
  now rewrite IH, sans_headers_setitem.
Qed.

Lemma sans_headers_bare (msg : MIMEBase) :
  assigned_headers msg = [] -> sans_headers msg = msg.
Proof. destruct msg; simpl; intros ->; reflexivity. Qed.

Lemma attachment_layer_bare (e : Email) (body inner : MIMEBase) :
  assigned_headers body = [] ->
  _layer_attachments body e = (inr inner, e) -> assigned_headers inner = [].
Proof.
  intros Hb. rewrite layer_attachments_run. intros H. injection H as <-.
  destruct (_attachments e); [exact Hb | reflexivity].
Qed.

Lemma mime_header_names (msg : MIMEBase) :
  Forall (fun h => In (fst h) [ "Content-Type"; "MIME-Version"; "Content-Transfer-Encoding" ])
         (mime_headers msg).
Proof.
  destruct msg as [p mt st enc [|q ps] hs|st parts hs]; unfold mime_headers;
    repeat (apply Forall_cons; [cbn [fst In]; tauto|]); apply Forall_nil.
Qed.

Lemma assembled_bcc (e : Email) (hs : list (string * string)) :
  assembled_headers e = inr hs ->
  exists rendered,
    comprehension encode (_bcc e) = inr rendered
    /\ map snd (filter (fun h => String.eqb (Str.lower (fst h)) (Str.lower "BCC")) hs)
       = address_header rendered.
Proof.
  unfold assembled_headers, and_then.
  destruct (encode (_from e)); [discriminate|].
  destruct (comprehension encode (_to e)) as [|[|t ts]]; [discriminate| |];
    (destruct (comprehension encode (_cc e)) as [|[|c cs]]; [discriminate| |]);
    (destruct (comprehension encode (_bcc e)) as [|[|b bs]]; [discriminate| |]);
    intros H; injection H as <-; eexists; (split; [reflexivity|]);
    destruct (_subject e); reflexivity.
Qed.

(** X11. A security policy is applied once, to the entity that already
    holds the attachments and on which none of the headers of [serialize]
    has been assigned: it carries the headers of the MIME library only
    ([Content-Type], [MIME-Version] and, on a leaf,
    [Content-Transfer-Encoding]). The headers of [serialize] are appended
    afterwards, behind all headers of what the policy returned, and leave
    its payload, type and parts as they are. *)
Theorem X11_security_before_headers (e e1 : Email) (s : SerializedEmail) (sec : SMIME) :
  serialize e = (inr s, e1) ->
  _security e = Some sec ->
  exists body inner hs m,
    _layer_text_content e = (inr body, e)
    /\ _layer_attachments body e = (inr inner, e)
    /\ assigned_headers inner = []
    /\ Forall (fun h => In (fst h)
                          [ "Content-Type"; "MIME-Version"; "Content-Transfer-Encoding" ])
              (headers_of inner)
    /\ assembled_headers e = inr hs
    /\ content s = PyMessage m
    /\ sans_headers m = sans_headers (process sec inner)
    /\ headers_of m = (headers_of (process sec inner) ++ hs)%list.
Proof.
  intros H Hsec. apply serialize_inr in H as [body [hs [Hb [Ha [_ ->]]]]].
  pose proof (layer_attachments_run e body) as Hl.
  pose proof (attachment_layer_bare _ _ _ (body_layer_bare _ _ Hb) Hl) as Hbare.
  eexists. eexists. exists hs. eexists.
  split; [exact Hb|]. split; [exact Hl|]. split; [exact Hbare|].
  split; [unfold headers_of; rewrite Hbare, app_nil_r; apply mime_header_names|].
  split; [exact Ha|]. split; [reflexivity|].
  rewrite sans_headers_assign_all, headers_of_assign_all.
  unfold enveloped. rewrite Hsec. split; reflexivity.
Qed.

(** X12. Without a security policy the document is the entity of the
    attachment layer, and its header list is the headers of the MIME
    library on that entity followed by exactly the headers of header
    assembly: [Subject] if set, [Message-ID], [Date], [User-Agent], [From],
    then [To], [CC] and [BCC], each only if its list is not empty. With
    attachments the list starts with [Content-Type: multipart/related] and
    [MIME-Version: 1.0]; and the [BCC] header of a message with blind-copy
    recipients, their renderings joined by commas, is in the document. *)
Theorem X12_header_block (e e1 : Email) (s : SerializedEmail) :
  serialize e = (inr s, e1) ->
  _security e = None ->
  exists body inner hs m,
    _layer_text_content e = (inr body, e)
    /\ _layer_attachments body e = (inr inner, e)
    /\ assembled_headers e = inr hs
    /\ content s = PyMessage m
    /\ sans_headers m = inner
    /\ headers_of m = (mime_headers inner ++ hs)%list
    /\ (_attachments e <> [] ->
        mime_headers inner
        = [ ("Content-Type", "multipart/related"); ("MIME-Version", "1.0") ])
    /\ (_bcc e <> [] ->
        exists rendered,
          comprehension encode (_bcc e) = inr rendered
          /\ get_all m "BCC" = [ Str.join ", " rendered ]).
Proof.
  intros H Hsec. apply serialize_inr in H as [body [hs [Hb [Ha [_ ->]]]]].
  pose proof (layer_attachments_run e body) as Hl.
  pose proof (attachment_layer_bare _ _ _ (body_layer_bare _ _ Hb) Hl) as Hbare.
  assert (Henv : enveloped e body
                 = match _attachments e with
                   | [] => body
                   | _ :: _ => MIMEMultipart "related"
                                 (body :: map as_mime (_attachments e)) []
                   end).
  { unfold enveloped. now rewrite Hsec. }
  eexists. eexists. exists hs. eexists.
  split; [exact Hb|]. split; [exact Hl|]. split; [exact Ha|].
  split; [reflexivity|].
  rewrite sans_headers_assign_all, headers_of_assign_all, Henv.
  split; [now apply sans_headers_bare|].
  split; [unfold headers_of; now rewrite Hbare, app_nil_r|].
  split.
  - intros Hne. destruct (_attachments e); [contradiction | reflexivity].
  - intros Hne. destruct (assembled_bcc e hs Ha) as [rendered [Hr Hf]].
    exists rendered. split; [exact Hr|].
    rewrite get_all_assign_all, get_all_assigned by reflexivity.
    rewrite Hbare, Hf. apply comprehension_length in Hr.
    destruct rendered; [|reflexivity].
    destruct (_bcc e); [contradiction | discriminate Hr].
Qed.

Lemma NoDup_app_disjoint {A} (l1 l2 : list A) (a : A) :
  NoDup (l1 ++ l2) -> In a l1 -> In a l2 -> False.
Proof.
  induction l1 as [|x l1 IH]; simpl; intros Hnd H1 H2; [contradiction|].
  inversion Hnd as [|? ? Hx Hrest]; subst. destruct H1 as [->|H1].
  - apply Hx, in_or_app. now right.
  - now apply IH.
Qed.

(** X17. The envelope has one entry for each address of the three lists,
    so at least one; every address of a list is in it; and it is not
    deduplicated: an address that is in [to] and again in [cc] or [bcc] is
    in the envelope twice. *)
Theorem X17_envelope (e e1 : Email) (s : SerializedEmail) :
  serialize e = (inr s, e1) ->
  length (recipients s) = recipient_count e
  /\ recipients s <> []
  /\ (forall a, In a (_to e ++ _cc e ++ _bcc e) -> In (mail a) (recipients s))
  /\ (forall a b, In a (_to e) -> In b (_cc e ++ _bcc e) -> mail a = mail b ->
        ~ NoDup (recipients s)).
Proof.
  intros H.
  assert (H0 : recipient_count e <> 0).
  { destruct (layer_text_cases e) as [[_ Hr] | [[H0 _] | [H0 _]]]; try assumption.
    rewrite (serialize_raises _ _ _ Hr) in H. discriminate. }
  apply serialize_inr in H as [body [hs [_ [_ [_ ->]]]]]. simpl.
  assert (Hlen : length (map mail (_to e ++ _cc e ++ _bcc e)) = recipient_count e).
  { unfold recipient_count. rewrite length_map, !length_app. lia. }
  split; [exact Hlen|]. split; [|split].
  - intros Hnil. rewrite Hnil in Hlen. simpl in Hlen. congruence.
  - intros a Ha. now apply in_map.
  - intros a b Ha Hb Hab Hnd. rewrite map_app in Hnd.
    apply (NoDup_app_disjoint _ _ (mail a) Hnd); [now apply in_map|].
    rewrite Hab. now apply in_map.
Qed.

End Document.

(** ** More on wrapping, late bodies and inline references *)

Section Further.

Context `{lib : Stdlib}.

Local Open Scope py_scope.

Lemma parwrapped_fixed (p : string) :
  (p = "" /\ textwrap_wrap "" 72 = []) \/ textwrap_wrap p 72 = [ p ] ->
  parwrapped p = [ p ].
Proof.
  unfold parwrapped. intros [[-> H] | H]; rewrite H; reflexivity.
Qed.

(** X13. A text of which [textwrap.wrap] leaves every line as it is (one
    line, the same; no line for an empty one) comes back from
    [_wrap_paragraphs] unchanged, line breaks and empty lines included. *)
Theorem X13_wrap_fixed_point (x : string) :
  Forall (fun p => (p = "" /\ textwrap_wrap "" 72 = []) \/ textwrap_wrap p 72 = [ p ])
         (Str.split Str.newline x) ->
  _wrap_paragraphs x = x.
Proof.
  intros H. rewrite wrap_paragraphs_lines.
  assert (Hl : concat (map parwrapped (Str.split Str.newline x)) = Str.split Str.newline x).
  { induction H as [|p ps Hp _ IH]; [reflexivity|].
    simpl. rewrite (parwrapped_fixed p Hp), IH. reflexivity. }
  rewrite Hl. apply join_split.
Qed.

Lemma concat_parwrapped_length (ps : list string) :
  length ps <= length (concat (map parwrapped ps)).
Proof.
  induction ps as [|p ps IH]; simpl; [lia|].
  rewrite length_app. pose proof (parwrapped_not_nil p) as Hp.
  destruct (parwrapped p); [congruence | simpl; lia].
Qed.

(** X14. Wrapping never removes a line break: provided the lines
    [textwrap.wrap] returns hold no line break themselves, the wrapped text
    has at least as many line breaks, and so at least as many lines, as
    the text. *)
Theorem X14_wrap_keeps_line_breaks (t : string) :
  line_break_free (Str.split Str.newline t) = true ->
  count_char Str.newline t <= count_char Str.newline (_wrap_paragraphs t)
  /\ length (Str.split Str.newline t)
     <= length (Str.split Str.newline (_wrap_paragraphs t)).
Proof.
  intros Hc.
  assert (H : length (Str.split Str.newline t)
              <= length (Str.split Str.newline (_wrap_paragraphs t))).
  { rewrite (split_wrapped t Hc). apply concat_parwrapped_length. }
  split; [|exact H]. rewrite !split_length in H. lia.
Qed.

Lemma comprehension_total (l : list MailAddress) :
  forallb can_encode l = true -> exists r, comprehension encode l = inr r.
Proof.
  induction l as [|a l IH]; simpl; [now exists []|].
  intros H. apply andb_true_iff in H as [Ha Hl]. unfold can_encode in Ha.
  destruct (encode a) as [x|y]; [discriminate|].
  destruct (IH Hl) as [r ->]. now eexists.
Qed.

Lemma encodable_assembled (e : Email) :
  encodable e = true -> exists hs, assembled_headers e = inr hs.
Proof.
  unfold encodable. cbn [forallb]. rewrite !forallb_app. intros H.
  apply andb_true_iff in H as [Hf H]. apply andb_true_iff in H as [Ht H].
  apply andb_true_iff in H as [Hc Hb].
  destruct (comprehension_total _ Ht) as [t Ht'].
  destruct (comprehension_total _ Hc) as [c Hc'].
  destruct (comprehension_total _ Hb) as [b Hb'].
  unfold assembled_headers, and_then. unfold can_encode in Hf.
  destruct (encode (_from e)); [discriminate|].
  rewrite Ht', Hc', Hb'. now eexists.
Qed.

(** With a recipient, a body and addresses that can all be rendered,
    [serialize] succeeds. *)
Lemma serialize_succeeds (e : Email) :
  recipient_count e <> 0 -> (_text e <> None \/ _html e <> None) ->
  encodable e = true ->
  exists s, serialize e = (inr s, e).
Proof.
  intros H0 Hb He.
  destruct (layer_text_cases e) as [[Hz _] | [[_ [Ht [Hh _]]] | [_ [_ [body Hr]]]]].
  - contradiction.
  - destruct Hb; contradiction.
  - rewrite (serialize_returns _ _ Hr).
    destruct (encodable_assembled e He) as [hs ->]. now eexists.
Qed.

(** X15. The body is looked at when [serialize] runs, not before: on an
    instance with a recipient whose addresses can all be rendered,
    assigning a text or an HTML body and then serializing succeeds,
    whatever the body was before, and taking both away again brings the
    no-body exception back. *)
Theorem X15_body_at_serialize_time (e : Email) :
  recipient_count e <> 0 ->
  encodable e = true ->
  (forall t, exists s,
      (_ <- text_setter (Some t) ;; serialize) e = (inr s, with_text e (Some t)))
  /\ (forall h, exists s,
        (_ <- html_setter (Some h) ;; serialize) e = (inr s, with_html e (Some h)))
  /\ (_ <- text_setter None ;; _ <- html_setter None ;; serialize) e
     = (inl (NoBodyException "Mail has no text or HTML content."),
        with_html (with_text e None) None).
Proof.
  intros H0 He. split; [|split].
  - intros t. unfold bind at 1. simpl.
    apply (serialize_succeeds (with_text e (Some t)));
      [exact H0 | left; discriminate | exact He].
  - intros h. unfold bind at 1. simpl.
    apply (serialize_succeeds (with_html e (Some h)));
      [exact H0 | right; discriminate | exact He].
  - unfold bind at 1. simpl. unfold bind at 1. simpl.
    apply serialize_raises, layer_text_no_body; [|reflexivity|reflexivity].
    unfold recipient_count in *. simpl. exact H0.
Qed.

(** X16. The URI [attach_data] returns names the attachment it added: in
    the [multipart/related] built afterwards, the new attachment is the last
    part, behind the body and the earlier attachments, and the URI is
    [cid:] followed by the [Content-ID] header of that part. *)
Theorem X16_uri_names_last_part (e e' : Email) (d : list byte) (fn : string)
        (mt : option string) (il : bool) (cid : option string) (uri : string)
        (body : MIMEBase) :
  attach_data d fn mt il cid e = (inr uri, e') ->
  exists a,
    _layer_attachments body e'
    = (inr (MIMEMultipart "related"
              (body :: map as_mime (_attachments e) ++ [ as_mime a ]) []), e')
    /\ data a = d /\ filename a = fn /\ inline a = il
    /\ get_all (as_mime a) "Content-ID" = [ content_id a ]
    /\ uri = "cid:" ++ content_id a.
Proof.
  rewrite attach_data_run.
  destruct (Str.split Str.slash (_mimetype fn mt)) as [|mn [|sb [|x rest]]];
    try discriminate.
  intros H. injection H as <- <-.
  rewrite layer_attachments_run. simpl.
  exists {| data := d; maintype := mn; subtype := sb; filename := fn; inline := il;
            content_id := match cid with
                          | None => "cid" ++ Str.of_nat (length (_attachments e))
                          | Some c => c
                          end |}.
  split.
  - rewrite map_app. destruct (_attachments e) as [|a0 l]; reflexivity.
  - split; [reflexivity|]. split; [reflexivity|]. split; [reflexivity|].
    split; [apply as_mime_content_id | reflexivity].
Qed.

End Further.

(** ** The further properties at concrete inputs *)

Lemma X1_witness :
  count_char Str.slash (_mimetype (lib := Sample.cpython) "report.pdf" None) = 1
  /\ exists uri a,
       attach_data (lib := Sample.cpython) Sample2.pixel "report.pdf" None false None
                   Sample.blank
       = (inr uri, with_attachments Sample.blank (_attachments Sample.blank ++ [ a ])%list)
       /\ maintype a ++ "/" ++ subtype a
          = _mimetype (lib := Sample.cpython) "report.pdf" None
       /\ Str.contains Str.slash (maintype a) = false
       /\ Str.contains Str.slash (subtype a) = false
       /\ data a = Sample2.pixel /\ filename a = "report.pdf" /\ inline a = false.
Proof.
  split; [reflexivity|].
  apply (proj2 (X1_attach_data_mimetype (lib := Sample.cpython) Sample.blank
                  Sample2.pixel "report.pdf" None false None)).
  reflexivity.
Defined.

Lemma X2_witness :
  automatic_ids (_attachments Sample2.blank_logo)
  /\ attach_data (lib := Sample.cpython) [ x25; x50; x44; x46 ] "report.pdf" None false None
                 Sample2.blank_logo
     = (inr "cid:cid1",
        with_attachments Sample2.blank_logo
          (_attachments Sample2.blank_logo ++ [ Sample2.report_attachment "cid1" ])%list)
  /\ NoDup (map content_id
              (_attachments Sample2.blank_logo ++ [ Sample2.report_attachment "cid1" ])).
Proof.
  split; [reflexivity|]. split; [reflexivity|].
  apply (X2_automatic_ids_unique (lib := Sample.cpython) Sample2.blank_logo
           (with_attachments Sample2.blank_logo
              (_attachments Sample2.blank_logo ++ [ Sample2.report_attachment "cid1" ])%list)
           [ x25; x50; x44; x46 ] "report.pdf" None false "cid:cid1");
    reflexivity.
Defined.

Lemma X3_witness :
  In "cid1" (map content_id (_attachments Sample2.blank_custom))
  /\ attach_data (lib := Sample.cpython) [ x25; x50; x44; x46 ] "report.pdf" None false None
                 Sample2.blank_custom
     = (inr "cid:cid1",
        with_attachments Sample2.blank_custom
          (_attachments Sample2.blank_custom ++ [ Sample2.report_attachment "cid1" ])%list)
  /\ ~ NoDup (map content_id
                (_attachments Sample2.blank_custom ++ [ Sample2.report_attachment "cid1" ])).
Proof.
  split; [left; reflexivity|]. split; [reflexivity|].
  apply (X3_content_id_collision (lib := Sample.cpython) Sample2.blank_custom
           (with_attachments Sample2.blank_custom
              (_attachments Sample2.blank_custom ++ [ Sample2.report_attachment "cid1" ])%list)
           [ x25; x50; x44; x46 ] "report.pdf" None false None "cid:cid1");
    [left; reflexivity | reflexivity].
Defined.

Lemma X4_witness :
  fst (guess_type (Stdlib := Sample.cpython) "blob.xyzzy") = None
  /\ exists uri a,
       attach_data (lib := Sample.cpython) Sample2.pixel "blob.xyzzy" None true None
                   Sample.blank
       = (inr uri, with_attachments Sample.blank (_attachments Sample.blank ++ [ a ])%list)
       /\ maintype a = "application" /\ subtype a = "octet-stream"
       /\ data a = Sample2.pixel /\ filename a = "blob.xyzzy".
Proof.
  split; [reflexivity|].
  apply (X4_unknown_type_fallback (lib := Sample.cpython) Sample.blank Sample2.pixel
           "blob.xyzzy" true None).
  reflexivity.
Defined.

Lemma X5_witness :
  Exists (fun a => exists x, parse (lib := Sample.cpython) a = inl x)
         [ inr "bob@example.org"; inr "a@x.org, b@x.org" ]
  /\ exists x,
       to (lib := Sample.cpython) [ inr "bob@example.org"; inr "a@x.org, b@x.org" ]
          Sample.note = (inl x, Sample.note)
       /\ cc (lib := Sample.cpython) [ inr "bob@example.org"; inr "a@x.org, b@x.org" ]
             Sample.note = (inl x, Sample.note)
       /\ bcc (lib := Sample.cpython) [ inr "bob@example.org"; inr "a@x.org, b@x.org" ]
              Sample.note = (inl x, Sample.note).
Proof.
  assert (H : Exists (fun a => exists x, parse (lib := Sample.cpython) a = inl x)
                     [ inr "bob@example.org"; inr "a@x.org, b@x.org" ]).
  { right. left. exists ValueError. reflexivity. }
  split; [exact H|].
  exact (proj1 (X5_recipients_all_or_nothing (lib := Sample.cpython) Sample.note
                  [ inr "bob@example.org"; inr "a@x.org, b@x.org" ]) H).
Defined.

Lemma X6_witness :
  to (lib := Sample.cpython) [ inr "bob@example.org" ] Sample.blank
  = (inr tt, with_to Sample.blank [ Sample.bob ])
  /\ to (lib := Sample.cpython) [ inr "a@x.org, b@x.org" ] (with_to Sample.blank [ Sample.bob ])
     = (inl ValueError, with_to Sample.blank [ Sample.bob ])
  /\ to (lib := Sample.cpython) [ inr "bob@example.org"; inr "a@x.org, b@x.org" ] Sample.blank
     = (inl ValueError, Sample.blank).
Proof.
  split; [reflexivity|]. split; [reflexivity|].
  apply (proj2 (X6_to_batches (lib := Sample.cpython) Sample.blank
                  [ inr "bob@example.org" ] [ inr "a@x.org, b@x.org" ])
               (with_to Sample.blank [ Sample.bob ]) ValueError); reflexivity.
Defined.

Lemma X7_witness :
  run_calls (lib := Sample.cpython)
            [ call_to [ inr "bob@example.org" ]; set_text (Some "hello") ] Sample.blank
  = (inr tt, Sample.note)
  /\ grown_from Sample.blank Sample.note
  /\ recipient_count Sample.blank <= recipient_count Sample.note.
Proof.
  split; [reflexivity|].
  apply (X7_program_invariants (lib := Sample.cpython)
           [ call_to [ inr "bob@example.org" ]; set_text (Some "hello") ]
           Sample.blank Sample.note (inr tt)).
  reflexivity.
Defined.

Lemma X8_witness :
  run_calls (lib := Sample.cpython)
            [ call_cc [ inr "Carol <carol@example.org>" ]; set_subject (Some "Hi") ]
            Sample.note
  = (inr tt, Sample2.note_cc)
  /\ serialize (lib := Sample.cpython) Sample.note
     = (inr Sample.note_serialized, Sample.note)
  /\ serialize (lib := Sample.cpython) Sample2.note_cc
     = (inr Sample2.note_cc_serialized, Sample2.note_cc)
  /\ recipient_count Sample.note <> 0
  /\ (exists m1 m2,
        content Sample.note_serialized = PyMessage m1
        /\ content Sample2.note_cc_serialized = PyMessage m2
        /\ last (get_all m1 "Message-ID") "" = last (get_all m2 "Message-ID") ""
        /\ last (get_all m1 "Date") "" = last (get_all m2 "Date") ""
        /\ last (get_all m2 "Message-ID") "" = _message_id Sample.note)
  /\ forall m, fst (serialize (lib := Sample.cpython) Sample2.note_cc)
               <> inl (NoRecipientException m).
Proof.
  split; [reflexivity|]. split; [reflexivity|]. split; [reflexivity|].
  split; [discriminate|].
  destruct (X8_identity_survives_program (lib := Sample.cpython)
              [ call_cc [ inr "Carol <carol@example.org>" ]; set_subject (Some "Hi") ]
              Sample.note Sample2.note_cc (inr tt) eq_refl) as [Hsame Hkeep].
  split.
  - exact (Hsame Sample.note_serialized Sample2.note_cc_serialized
                 Sample.note Sample2.note_cc eq_refl eq_refl).
  - apply Hkeep. discriminate.
Defined.

Lemma X9_witness :
  __init__ (lib := Sample.cpython) (0 : @float Sample.cpython) Sample.urandom16
           (inr "Alice <alice@example.org>") None (Some "hello") false None None
  = inr (with_text Sample.blank (Some "hello"))
  /\ serialize (lib := Sample.cpython) (with_text Sample.blank (Some "hello"))
     = (inl (NoRecipientException "Mail has no To, CC, or BCC set. Unable to serialize."),
        with_text Sample.blank (Some "hello")).
Proof.
  split; [reflexivity|].
  apply (proj2 (X9_fresh_email (lib := Sample.cpython) (0 : @float Sample.cpython)
                  Sample.urandom16 (inr "Alice <alice@example.org>") None (Some "hello") false None None)
               (with_text Sample.blank (Some "hello")) eq_refl).
Defined.

Lemma X10_witness :
  __init__ (lib := Sample.cpython) (0 : @float Sample.cpython) Sample.urandom16
           (inr "Alice <alice@example.org>") None None false None None = inr Sample.blank
  /\ __init__ (lib := Sample.cpython) (0 : @float Sample.cpython) Sample2.other_random
              (inl Sample.bob) None None false None None
     = inr Sample2.blank_from_bob
  /\ (_message_id Sample.blank = _message_id Sample2.blank_from_bob
      <-> Sample.urandom16 = Sample2.other_random)
  /\ String.length (_message_id Sample.blank) = 43.
Proof.
  split; [reflexivity|]. split; [reflexivity|].
  apply (X10_message_id_of_random (lib := Sample.cpython)
           (0 : @float Sample.cpython) (0 : @float Sample.cpython)
           Sample.urandom16 Sample2.other_random
           (inr "Alice <alice@example.org>") (inl Sample.bob)
           None None None None false false None None None None Sample.blank
           Sample2.blank_from_bob); reflexivity.
Defined.

Lemma X11_witness :
  serialize (lib := Sample.cpython) Sample2.signed_note
  = (inr Sample2.signed_serialized, Sample2.signed_note)
  /\ _security Sample2.signed_note = Some Sample2.signer
  /\ exists body inner hs m,
       _layer_text_content (lib := Sample.cpython) Sample2.signed_note
       = (inr body, Sample2.signed_note)
       /\ _layer_attachments (lib := Sample.cpython) body Sample2.signed_note
          = (inr inner, Sample2.signed_note)
       /\ assigned_headers inner = []
       /\ Forall (fun h => In (fst h)
                             [ "Content-Type"; "MIME-Version"; "Content-Transfer-Encoding" ])
                 (headers_of inner)
       /\ assembled_headers (lib := Sample.cpython) Sample2.signed_note = inr hs
       /\ content Sample2.signed_serialized = PyMessage m
       /\ sans_headers m = sans_headers (process Sample2.signer inner)
       /\ headers_of m = (headers_of (process Sample2.signer inner) ++ hs)%list.
Proof.
  split; [reflexivity|]. split; [reflexivity|].
  apply (X11_security_before_headers (lib := Sample.cpython) Sample2.signed_note
           Sample2.signed_note Sample2.signed_serialized Sample2.signer); reflexivity.
Defined.

Example signed_headers :
  headers_of Sample2.signed_document
  = [ ("Content-Type", "multipart/signed"); ("MIME-Version", "1.0");
      ("X-Signed", "yes");
      ("Message-ID", Sample.message_id);
      ("Date", "Thu, 01 Jan 1970 00:00:00 +0000");
      ("User-Agent", "mailcoil v0.0.1");
      ("From", "Alice <alice@example.org>");
      ("To", "bob@example.org") ].
Proof. reflexivity. Qed.

Lemma X12_witness :
  serialize (lib := Sample.cpython) Sample.newsletter
  = (inr Sample2.newsletter_serialized, Sample.newsletter)
  /\ _security Sample.newsletter = None
  /\ _attachments Sample.newsletter <> []
  /\ _bcc Sample.newsletter <> []
  /\ exists body inner hs m,
       _layer_text_content (lib := Sample.cpython) Sample.newsletter
       = (inr body, Sample.newsletter)
       /\ _layer_attachments (lib := Sample.cpython) body Sample.newsletter
          = (inr inner, Sample.newsletter)
       /\ assembled_headers (lib := Sample.cpython) Sample.newsletter = inr hs
       /\ content Sample2.newsletter_serialized = PyMessage m
       /\ sans_headers m = inner
       /\ headers_of m = (mime_headers inner ++ hs)%list
       /\ mime_headers inner
          = [ ("Content-Type", "multipart/related"); ("MIME-Version", "1.0") ]
       /\ exists rendered,
            comprehension (encode (lib := Sample.cpython)) (_bcc Sample.newsletter)
            = inr rendered
            /\ get_all m "BCC" = [ Str.join ", " rendered ].
Proof.
  split; [reflexivity|]. split; [reflexivity|]. split; [discriminate|].
  split; [discriminate|].
  destruct (X12_header_block (lib := Sample.cpython) Sample.newsletter Sample.newsletter
              Sample2.newsletter_serialized eq_refl eq_refl)
    as [body [inner [hs [m [H1 [H2 [H3 [H4 [H5 [H6 [H7 H8]]]]]]]]]]].
  exists body, inner, hs, m.
  repeat (split; [assumption|]).
  split; [apply H7; discriminate | apply H8; discriminate].
Defined.

(** The header list of the note and of the newsletter, as the documents
    carry them. *)
Example note_headers :
  headers_of Sample.note_document
  = [ ("MIME-Version", "1.0");
      ("Content-Transfer-Encoding", "quoted-printable");
      ("Content-Type", "text/plain; charset=" ++ Str.dquote ++ "utf-8" ++ Str.dquote);
      ("Message-ID", Sample.message_id);
      ("Date", "Thu, 01 Jan 1970 00:00:00 +0000");
      ("User-Agent", "mailcoil v0.0.1");
      ("From", "Alice <alice@example.org>");
      ("To", "bob@example.org") ].
Proof. reflexivity. Qed.

Example newsletter_headers :
  headers_of Sample2.newsletter_document
  = [ ("Content-Type", "multipart/related"); ("MIME-Version", "1.0");
      ("Subject", "News");
      ("Message-ID", Sample.message_id);
      ("Date", "Thu, 01 Jan 1970 00:00:00 +0000");
      ("User-Agent", "mailcoil v0.0.1");
      ("From", "Alice <alice@example.org>");
      ("To", "bob@example.org");
      ("CC", "Carol <carol@example.org>");
      ("BCC", "dave@example.org") ]
  /\ headers_of (as_mime Sample.logo)
     = [ ("Content-Type", "image/png"); ("MIME-Version", "1.0");
         ("Content-Transfer-Encoding", "base64");
         ("Content-Disposition",
          "inline; filename=" ++ Str.dquote ++ "logo.png" ++ Str.dquote);
         ("Content-ID", "cid0") ].
Proof. split; reflexivity. Qed.

Lemma X13_witness :
  Forall (fun p => (p = "" /\ textwrap_wrap (Stdlib := Sample.cpython) "" 72 = [])
                   \/ textwrap_wrap (Stdlib := Sample.cpython) p 72 = [ p ])
         (Str.split Str.newline ("Hi" ++ String Str.newline (String Str.newline "Bye")))
  /\ _wrap_paragraphs (lib := Sample.cpython)
       ("Hi" ++ String Str.newline (String Str.newline "Bye"))
     = "Hi" ++ String Str.newline (String Str.newline "Bye").
Proof.
  assert (H : Forall (fun p => (p = "" /\ textwrap_wrap (Stdlib := Sample.cpython) "" 72 = [])
                               \/ textwrap_wrap (Stdlib := Sample.cpython) p 72 = [ p ])
                     (Str.split Str.newline
                        ("Hi" ++ String Str.newline (String Str.newline "Bye")))).
  { repeat constructor; first [ right; reflexivity | left; split; reflexivity ]. }
  split; [exact H|].
  exact (X13_wrap_fixed_point (lib := Sample.cpython)
           ("Hi" ++ String Str.newline (String Str.newline "Bye")) H).
Defined.

Lemma X14_witness :
  line_break_free (lib := Sample.cpython) (Str.split Str.newline Sample.news_text) = true
  /\ count_char Str.newline Sample.news_text
     <= count_char Str.newline (_wrap_paragraphs (lib := Sample.cpython) Sample.news_text)
  /\ length (Str.split Str.newline Sample.news_text)
     <= length (Str.split Str.newline
                  (_wrap_paragraphs (lib := Sample.cpython) Sample.news_text)).
Proof.
  split; [reflexivity|].
  apply (X14_wrap_keeps_line_breaks (lib := Sample.cpython) Sample.news_text).
  reflexivity.
Defined.

Lemma X15_witness :
  recipient_count Sample.hollow <> 0
  /\ encodable (lib := Sample.cpython) Sample.hollow = true
  /\ (exists s,
        bind (text_setter (lib := Sample.cpython) (Some "hello"))
             (fun _ => serialize (lib := Sample.cpython)) Sample.hollow
        = (inr s, with_text Sample.hollow (Some "hello")))
  /\ bind (text_setter (lib := Sample.cpython) None)
          (fun _ => bind (html_setter (lib := Sample.cpython) None)
                         (fun _ => serialize (lib := Sample.cpython))) Sample.hollow
     = (inl (NoBodyException "Mail has no text or HTML content."),
        with_html (with_text Sample.hollow None) None).
Proof.
  split; [discriminate|]. split; [reflexivity|].
  destruct (X15_body_at_serialize_time (lib := Sample.cpython) Sample.hollow
              ltac:(discriminate) eq_refl) as [Htext [_ Hnone]].
  split; [exact (Htext "hello") | exact Hnone].
Defined.

(** The precondition of X15 is a real one: with an address that cannot be
    rendered in copy, a body does not make [serialize] succeed. *)
Example unrendered_address :
  encodable (lib := Sample.cpython) Sample2.note_umlaut = false
  /\ bind (text_setter (lib := Sample.cpython) (Some "hello"))
          (fun _ => serialize (lib := Sample.cpython)) Sample2.note_umlaut
     = (inl UnicodeEncodeError, Sample2.note_umlaut).
Proof. split; reflexivity. Qed.

Lemma X16_witness :
  attach_data (lib := Sample.cpython) Sample2.pixel "logo.png" None false None Sample.note
  = (inr "cid:cid0", with_attachments Sample.note (_attachments Sample2.blank_logo))
  /\ exists a,
       _layer_attachments (lib := Sample.cpython) (text_leaf "plain" "hello")
                          (with_attachments Sample.note (_attachments Sample2.blank_logo))
       = (inr (MIMEMultipart "related"
                 (text_leaf "plain" "hello"
                    :: map as_mime (_attachments Sample.note) ++ [ as_mime a ]) []),
          with_attachments Sample.note (_attachments Sample2.blank_logo))
       /\ data a = Sample2.pixel /\ filename a = "logo.png" /\ inline a = false
       /\ get_all (as_mime a) "Content-ID" = [ content_id a ]
       /\ "cid:cid0" = "cid:" ++ content_id a.
Proof.
  split; [reflexivity|].
  apply (X16_uri_names_last_part (lib := Sample.cpython) Sample.note
           (with_attachments Sample.note (_attachments Sample2.blank_logo))
           Sample2.pixel "logo.png" None false None "cid:cid0" (text_leaf "plain" "hello")).
  reflexivity.
Defined.

Lemma X17_witness :
  serialize (lib := Sample.cpython) Sample2.echo
  = (inr Sample2.echo_serialized, Sample2.echo)
  /\ In Sample.bob (_to Sample2.echo)
  /\ In Sample.bob (_cc Sample2.echo ++ _bcc Sample2.echo)
  /\ length (recipients Sample2.echo_serialized) = recipient_count Sample2.echo
  /\ recipients Sample2.echo_serialized <> []
  /\ (forall a, In a (_to Sample2.echo ++ _cc Sample2.echo ++ _bcc Sample2.echo) ->
        In (mail a) (recipients Sample2.echo_serialized))
  /\ ~ NoDup (recipients Sample2.echo_serialized).
Proof.
  split; [reflexivity|]. split; [now left|]. split; [right; now left|].
  destruct (X17_envelope (lib := Sample.cpython) Sample2.echo Sample2.echo
              Sample2.echo_serialized eq_refl) as [Hlen [Hne [Hin Hdup]]].
  split; [exact Hlen|]. split; [exact Hne|]. split; [exact Hin|].
  apply (Hdup Sample.bob Sample.bob); [now left | right; now left | reflexivity].
Defined.
